(** * Research_Compiler: the fetch / paginate / format / save pipeline

    A shallow embedding of [research_scraper.py] and the properties of its
    pagination loop, formatter, de-duplicating CSV writer and interactive
    loop.

    Conventions of the embedding.
    - Python values that travel through the pipeline are JSON values
      ([json]); a [dict] is an insertion-ordered association list with
      unique keys, read with [dict_get] (first binding of the key).
      JSON numbers are the integers.
    - A call that may raise returns a [pyres]; the exception class is kept.
    - The outside world (network, clock, file system, terminal) is a
      [world] record threaded through the effectful functions. *)

From Stdlib Require Import ZArith Ascii String List.
From stdpp Require Import base decidable option list gmap sets strings pretty numbers sorting.

Local Open Scope string_scope.
Local Open Scope nat_scope.

(** ** Python values *)

#[local] Set Warnings "-register-all,-clear-no-such-hyp".

Inductive json : Type :=
  | JNull
  | JBool (b : bool)
  | JNum (n : Z)
  | JStr (s : string)
  | JArr (l : list json)
  | JObj (kvs : list (string * json)).

(** The exception classes the code can meet: the three the interpreter
    raises on the values above and on [input], and, by the name of its
    class, whatever [open] raises ([FileNotFoundError], [IsADirectoryError],
    [PermissionError], [OSError] for a name that is too long, [ValueError]
    for a NUL in the path). *)
Inductive exn : Type :=
  | AttributeError
  | TypeError
  | EOFError
  | Raised (cls : string).

Inductive pyres (A : Type) : Type :=
  | Ok (a : A)
  | Raise (e : exn).
Arguments Ok {A} a.
Arguments Raise {A} e.

Definition rbind {A B} (r : pyres A) (k : A → pyres B) : pyres B :=
  match r with
  | Ok a => k a
  | Raise e => Raise e
  end.

Notation "x ← r ;;; k" := (rbind r (λ x, k))
  (at level 20, r at level 100, k at level 200, right associativity,
   format "x  ←  r  ;;;  '/' k").

Fixpoint rmap {A B} (f : A → pyres B) (l : list A) : pyres (list B) :=
  match l with
  | [] => Ok []
  | a :: l' => b ← f a ;;; bs ← rmap f l' ;;; Ok (b :: bs)
  end.

(** [d[k]] lookup in an insertion-ordered dict. *)
Fixpoint dict_get (kvs : list (string * json)) (k : string) : option json :=
  match kvs with
  | [] => None
  | (k', v) :: rest => if decide (k' = k) then Some v else dict_get rest k
  end.

(** [v.get(k, d)]: only a dict has the method. *)
Definition py_get (v : json) (k : string) (d : json) : pyres json :=
  match v with
  | JObj kvs => Ok (default d (dict_get kvs k))
  | _ => Raise AttributeError
  end.

(** Truth value of a Python object in a condition. *)
Definition truthy (v : json) : bool :=
  match v with
  | JNull => false
  | JBool b => b
  | JNum n => negb (n =? 0)%Z
  | JStr s => negb (bool_decide (s = ""))
  | JArr l => negb (bool_decide (l = []))
  | JObj kvs => negb (bool_decide (kvs = []))
  end.

Fixpoint chars (s : string) : list json :=
  match s with
  | EmptyString => []
  | String c rest => JStr (String c EmptyString) :: chars rest
  end.

(** The items a [for] loop or [list.extend] draws from a value. *)
Definition py_iter (v : json) : pyres (list json) :=
  match v with
  | JArr l => Ok l
  | JStr s => Ok (chars s)
  | JObj kvs => Ok (map (λ kv, JStr kv.1) kvs)
  | JNull | JBool _ | JNum _ => Raise TypeError
  end.

(** [len(v)]. *)
Definition py_len (v : json) : pyres nat :=
  match v with
  | JArr l => Ok (length l)
  | JStr s => Ok (String.length s)
  | JObj kvs => Ok (length kvs)
  | JNull | JBool _ | JNum _ => Raise TypeError
  end.

(** [sep.join(xs)]: every item has to be a [str]. *)
Fixpoint py_join (sep : string) (xs : list json) : pyres string :=
  match xs with
  | [] => Ok ""
  | JStr s :: [] => Ok s
  | JStr s :: rest => t ← py_join sep rest ;;; Ok (s ++ sep ++ t)
  | _ :: _ => Raise TypeError
  end.

(** What [hash] and [==] see of a value used as a set element: [True == 1]
    and [False == 0]; lists and dicts are unhashable. *)
Inductive key : Type :=
  | KNone
  | KNum (n : Z)
  | KStr (s : string).

Definition hash_key (v : json) : pyres key :=
  match v with
  | JNull => Ok KNone
  | JBool b => Ok (KNum (if b then 1 else 0))
  | JNum n => Ok (KNum n)
  | JStr s => Ok (KStr s)
  | JArr _ | JObj _ => Raise TypeError
  end.

#[global] Instance key_eq_dec : EqDecision key.
Proof. solve_decision. Defined.

Definition key_to_sum (k : key) : unit + (Z + string) :=
  match k with
  | KNone => inl ()
  | KNum n => inr (inl n)
  | KStr s => inr (inr s)
  end.

Definition key_of_sum (x : unit + (Z + string)) : key :=
  match x with
  | inl _ => KNone
  | inr (inl n) => KNum n
  | inr (inr s) => KStr s
  end.

#[global] Instance key_countable : Countable key.
Proof.
  apply (inj_countable' key_to_sum key_of_sum).
  by intros [].
Defined.

(** ** Python strings

    A character is a code point below 256; [str.lower] and [str.strip]
    are the Unicode ones restricted to that range. *)

Definition code (c : ascii) : N := N_of_ascii c.

Definition lower_char (c : ascii) : ascii :=
  let n := code c in
  if ((65 <=? n) && (n <=? 90) || (192 <=? n) && (n <=? 222) && negb (n =? 215))%N
  then ascii_of_N (n + 32)
  else c.

Fixpoint py_lower (s : string) : string :=
  match s with
  | EmptyString => EmptyString
  | String c rest => String (lower_char c) (py_lower rest)
  end.

Definition is_space (c : ascii) : bool :=
  let n := code c in
  ((9 <=? n) && (n <=? 13) || (28 <=? n) && (n <=? 32) || (n =? 133) || (n =? 160))%N.

Fixpoint py_lstrip (s : string) : string :=
  match s with
  | EmptyString => EmptyString
  | String c rest => if is_space c then py_lstrip rest else s
  end.

Fixpoint py_rstrip (s : string) : string :=
  match s with
  | EmptyString => EmptyString
  | String c rest =>
      match py_rstrip rest with
      | EmptyString => if is_space c then EmptyString else String c EmptyString
      | rest' => String c rest'
      end
  end.

Definition py_strip (s : string) : string := py_rstrip (py_lstrip s).

(** [os.path.join(a, b)] on a POSIX system. *)
Definition path_join (a b : string) : string :=
  match b with
  | String "/" _ => b
  | _ =>
      if bool_decide (a = "") then b
      else if bool_decide (String.substring (String.length a - 1) 1 a = "/") then a ++ b
      else a ++ "/" ++ b
  end.

(** [range(start, stop, step)] for a positive [step]. *)
Definition py_range (start stop step : Z) : list Z :=
  map (λ i : nat, (start + step * Z.of_nat i)%Z)
      (seq 0 (Z.to_nat ((stop - start + step - 1) / step))).

(** ** The formatter *)

(** Body of the loop of [format_google_scholar_results], lines 121-131. *)
Definition format_result (result : json) : pyres json :=
  publication_info ← py_get result "publication_info" (JObj []) ;;;
  authors ← py_get publication_info "authors" (JArr []) ;;;
  author_names ←
    (if truthy authors
     then items ← py_iter authors ;;;
          rmap (λ author, py_get author "name" (JStr "N/A")) items
     else Ok [JStr "N/A"]) ;;;
  title ← py_get result "title" (JStr "N/A") ;;;
  joined ← py_join ", " author_names ;;;
  link ← py_get result "link" (JStr "N/A") ;;;
  Ok (JObj [("Type", JStr "Research Paper");
            ("Title", title);
            ("Authors/Inventors", JStr joined);
            ("Link/Patent Number", link)]).

Definition format_google_scholar_results (results : list json) : pyres (list json) :=
  rmap format_result results.

(** ** The rows the writer emits *)

Inductive cell : Type :=
  | CInt (n : nat)
  | CVal (v : json).

Definition header : list cell :=
  [CVal (JStr "ID"); CVal (JStr "Type"); CVal (JStr "Title");
   CVal (JStr "Authors/Inventors"); CVal (JStr "Link/Patent Number")].

(** The [for] loop of [save_results], lines 95-105: [idx] is the counter of
    [enumerate], [seen_titles] the set; the rows handed to [writer.writerow]
    so far are returned also when an item makes the loop raise. *)
Fixpoint write_rows (idx : nat) (seen_titles : gset key) (results : list json)
    : list (list cell) * pyres unit :=
  match results with
  | [] => ([], Ok ())
  | item :: rest =>
      match py_get item "Title" (JStr "N/A") with
      | Raise e => ([], Raise e)
      | Ok title =>
          match hash_key title with
          | Raise e => ([], Raise e)
          | Ok k =>
              if decide (k ∈ seen_titles) then write_rows (S idx) seen_titles rest
              else
                match (ty ← py_get item "Type" (JStr "N/A") ;;;
                       au ← py_get item "Authors/Inventors" (JStr "N/A") ;;;
                       li ← py_get item "Link/Patent Number" (JStr "N/A") ;;;
                       Ok [CInt idx; CVal ty; CVal title; CVal au; CVal li]) with
                | Raise e => ([], Raise e)
                | Ok r =>
                    let '(rows, res) := write_rows (S idx) ({[k]} ∪ seen_titles) rest in
                    (r :: rows, res)
                end
          end
      end
  end.

(** ** The outside world *)

(** Query parameters of one GET. *)
Record params : Type := {
  engine : string;
  q : string;
  api_key : string;
  num : nat;
  start : Z;
}.

Inductive body : Type :=
  | Json (j : json)
  | Undecodable (err : string).

(** What [session.get] does with a request: a response comes back, or the
    transport fails (timeout, DNS, connection reset) with a message. *)
Inductive http_outcome : Type :=
  | Response (status : Z) (b : body)
  | TransportFailure (err : string).

(** The world: how the network answers the n-th request, the requests sent
    so far, what the clock shows at the n-th reading and how often it was
    read, what [open(path, "w")] does with a path (the file is created or
    truncated, or the call raises: a directory of the path is missing, the
    name is too long, the path is a directory, permission is denied), the
    files written, and the terminal output. *)
Record world : Type := {
  net : nat → string → params → http_outcome;
  sent : list (string * params);
  clock : nat → string;
  ticks : nat;
  os_open : string → pyres unit;
  fs : gmap string (list (list cell));
  stdout : list string;
}.

Definition M (A : Type) : Type := world → pyres A * world.

Definition ret {A} (a : A) : M A := λ w, (Ok a, w).

Definition bind {A B} (m : M A) (k : A → M B) : M B :=
  λ w, match m w with
       | (Ok a, w') => k a w'
       | (Raise e, w') => (Raise e, w')
       end.

Definition lift {A} (r : pyres A) : M A := λ w, (r, w).

Declare Scope M_scope.
Delimit Scope M_scope with M.
Bind Scope M_scope with M.
Notation "x <- m ;; k" := (bind m (λ x, k))
  (at level 100, m at level 99, k at level 200, right associativity,
   format "x  <-  m  ;;  '/' k") : M_scope.
Notation "m ;; k" := (bind m (λ _, k))
  (at level 100, k at level 200, right associativity) : M_scope.
Local Open Scope M_scope.

(** The world after [lines] went to the terminal. *)
Definition printed (lines : list string) (w : world) : world :=
  {| net := net w; sent := sent w; clock := clock w; ticks := ticks w;
     os_open := os_open w; fs := fs w; stdout := (stdout w ++ lines)%list |}.

Definition print (s : string) : M unit := λ w, (Ok (), printed [s] w).

(** [session.get(url, params=params)]: the request goes out and the world
    answers it. *)
Definition requested (reqs : list (string * params)) (w : world) : world :=
  {| net := net w; sent := (sent w ++ reqs)%list; clock := clock w;
     ticks := ticks w; os_open := os_open w; fs := fs w; stdout := stdout w |}.

Definition http_get (url : string) (p : params) : M http_outcome := λ w,
  (Ok (net w (length (sent w)) url p), requested [(url, p)] w).

(** [datetime.now().strftime("%Y-%m-%d_%H-%M-%S")]. *)
Definition now_strftime : M string := λ w,
  (Ok (clock w (ticks w)),
   {| net := net w; sent := sent w; clock := clock w; ticks := S (ticks w);
      os_open := os_open w; fs := fs w; stdout := stdout w |}).

(** [open(path, "w")], which raises when the operating system refuses the
    path, followed by the rows written before the file is closed. *)
Definition write_file (path : string) (rows : list (list cell)) : M unit := λ w,
  match os_open w path with
  | Ok _ =>
      (Ok (),
       {| net := net w; sent := sent w; clock := clock w; ticks := ticks w;
          os_open := os_open w; fs := <[path := rows]> (fs w);
          stdout := stdout w |})
  | Raise e => (Raise e, w)
  end.

(** ** The pipeline *)

Section Pipeline.

(** The two module-level constants, set when the module is loaded: the key
    read from the environment (the module raises [ValueError] and nothing
    below runs when it is missing) and the results directory, created if
    absent. *)
Variable SERPAPI_KEY : string.
Variable SAVE_DIRECTORY : string.

(** The [session] argument of the source is the connection to the network
    of the world. *)
Definition fetch (url : string) (p : params) : M json :=
  response <- http_get url p ;;
  match response with
  | Response status b =>
      if decide (status = 200%Z) then
        match b with
        | Json j => ret j
        | Undecodable e =>
            print ("Error fetching data from " ++ url ++ ": " ++ e) ;;
            ret (JObj [])
        end
      else
        print ("Error: Received status code " ++ pretty status ++ " from " ++ url) ;;
        ret (JObj [])
  | TransportFailure e =>
      print ("Error fetching data from " ++ url ++ ": " ++ e) ;;
      ret (JObj [])
  end.

Definition search_params (query : string) (start : Z) : params :=
  {| engine := "google_scholar"; q := query; api_key := SERPAPI_KEY;
     num := 10; start := start |}.

(** The [for start in range(...)] loop of [get_google_scholar_results],
    lines 59-71, over the offsets still to request. *)
Fixpoint paginate (query : string) (starts : list Z) (all_results : list json)
    : M (list json) :=
  match starts with
  | [] => ret all_results
  | start :: rest =>
      data <- fetch "https://serpapi.com/search" (search_params query start) ;;
      page <- lift (py_get data "organic_results" (JArr [])) ;;
      items <- lift (py_iter page) ;;
      let all_results := (all_results ++ items)%list in
      page' <- lift (py_get data "organic_results" (JArr [])) ;;
      n <- lift (py_len page') ;;
      if n <? 10 then ret all_results else paginate query rest all_results
  end.

Definition get_google_scholar_results (query : string) (num_results : Z)
    : M (list json) :=
  paginate query (py_range 0 num_results 10) [].

Definition save_results (results : list json) (query : string) : M unit :=
  match results with
  | [] => print "No results found. Skipping file save."
  | _ :: _ =>
      timestamp <- now_strftime ;;
      let output_file :=
        path_join SAVE_DIRECTORY
                  ("research_results_" ++ query ++ "_" ++ timestamp ++ ".csv") in
      let '(rows, r) := write_rows 1 ∅ results in
      write_file output_file (header :: rows) ;;
      lift r ;;
      print ("Results saved to " ++ output_file)
  end.

(** [main] on the lines the operator will type; [input] raises [EOFError]
    when none is left. *)
Fixpoint main (stdin : list string) : M unit :=
  print "Enter search keyword (or type 'exit' to quit): " ;;
  match stdin with
  | [] => lift (Raise EOFError)
  | query :: stdin' =>
      if bool_decide (py_lower query = "exit") then print "Exiting script."
      else if bool_decide (py_strip query = "") then
        print "Query is empty. Please enter a valid search keyword." ;;
        main stdin'
      else
        print "Fetching Google Scholar results..." ;;
        scholar_results <- get_google_scholar_results query 50 ;;
        print ("Fetched " ++ pretty (length scholar_results)
                          ++ " Google Scholar results.") ;;
        formatted_scholar_results <-
          lift (format_google_scholar_results scholar_results) ;;
        save_results formatted_scholar_results query ;;
        main stdin'
  end.

End Pipeline.

(** ** Vocabulary of the statements *)

(** The de-duplication key of a record: what [item.get("Title", "N/A")]
    hashes to, when [item] is a dict and the title is hashable. *)
Definition record_title (item : json) : option key :=
  match item with
  | JObj kvs =>
      match hash_key (default (JStr "N/A") (dict_get kvs "Title")) with
      | Ok k => Some k
      | Raise _ => None
      end
  | _ => None
  end.

(** A record the writer accepts without raising. *)
Definition writable (item : json) : Prop := is_Some (record_title item).

(** The list handed to [writer.writerow] for [item] under counter [idx]. *)
Definition row_of (idx : nat) (item : json) : list cell :=
  match item with
  | JObj kvs =>
      [CInt idx;
       CVal (default (JStr "N/A") (dict_get kvs "Type"));
       CVal (default (JStr "N/A") (dict_get kvs "Title"));
       CVal (default (JStr "N/A") (dict_get kvs "Authors/Inventors"));
       CVal (default (JStr "N/A") (dict_get kvs "Link/Patent Number"))]
  | _ => []
  end.

Definition row_id (r : list cell) : option nat :=
  match r with
  | CInt n :: _ => Some n
  | _ => None
  end.

Definition row_title (r : list cell) : option json :=
  match r with
  | [_; _; CVal t; _; _] => Some t
  | _ => None
  end.

(** Position [i] of [results] holds the first record with its title, and
    that title is not in [seen]. *)
Definition first_occurrence (seen : gset key) (results : list json)
    (i : nat) (item : json) : Prop :=
  results !! i = Some item ∧
  ∃ t, record_title item = Some t ∧ (t ∉ seen) ∧
       ∀ j item', j < i → results !! j = Some item' → record_title item' ≠ Some t.

(** The distinct titles of a sequence of records. *)
Definition distinct_titles (results : list json) : gset key :=
  list_to_set (omap record_title results).

(** The path [save_results] opens in world [w]. *)
Definition output_file (SAVE_DIRECTORY query : string) (w : world) : string :=
  path_join SAVE_DIRECTORY
            ("research_results_" ++ query ++ "_" ++ clock w (ticks w) ++ ".csv").

(** [open] accepts the path [save_results] builds in world [w]. *)
Definition can_save (SAVE_DIRECTORY query : string) (w : world) : Prop :=
  os_open w (output_file SAVE_DIRECTORY query w) = Ok ().

(** Typing of a raw result, §3 of the specification: a JSON object whose
    [publication_info], when present, is an object whose [authors], when
    present and not empty, is an array of objects with a string [name] or
    none. *)
Definition author_ok (author : json) : bool :=
  match author with
  | JObj kvs =>
      match dict_get kvs "name" with
      | None | Some (JStr _) => true
      | Some _ => false
      end
  | _ => false
  end.

Definition authors_ok (authors : json) : bool :=
  match authors with
  | JArr l => forallb author_ok l
  | v => negb (truthy v)
  end.

Definition well_typed_raw (raw : json) : bool :=
  match raw with
  | JObj kvs =>
      match dict_get kvs "publication_info" with
      | None => true
      | Some (JObj pkvs) =>
          match dict_get pkvs "authors" with
          | None => true
          | Some authors => authors_ok authors
          end
      | Some _ => false
      end
  | _ => false
  end.

(** The author list of a raw result, when it has one. *)
Definition authors_of (raw : json) : option json :=
  match raw with
  | JObj kvs =>
      match dict_get kvs "publication_info" with
      | Some (JObj pkvs) => dict_get pkvs "authors"
      | _ => None
      end
  | _ => None
  end.

(** The name of an author entry, ["N/A"] when it has none. *)
Definition name_of (author : json) : string :=
  match author with
  | JObj kvs =>
      match dict_get kvs "name" with
      | Some (JStr s) => s
      | _ => "N/A"
      end
  | _ => "N/A"
  end.

(** A field of a formatted record, as a reader of the CSV row sees it. *)
Definition field (rec : json) (k : string) : option json :=
  match rec with
  | JObj kvs => dict_get kvs k
  | _ => None
  end.

(** The names the formatter joins for an [authors] value. *)
Definition names_of (authors : json) : list string :=
  match authors with
  | JArr (a :: l) => map name_of (a :: l)
  | _ => ["N/A"]
  end.

(** The record the formatter builds from a well-typed raw result. *)
Definition authors_string (raw : json) : string :=
  match authors_of raw with
  | Some (JArr (a :: l)) => String.concat ", " (map name_of (a :: l))
  | _ => "N/A"
  end.

Definition formatted (raw : json) : json :=
  JObj [("Type", JStr "Research Paper");
        ("Title", default (JStr "N/A") (field raw "title"));
        ("Authors/Inventors", JStr (authors_string raw));
        ("Link/Patent Number", default (JStr "N/A") (field raw "link"))].

(** The title of a raw result, when it has one, can be a set element. *)
Definition title_ok (raw : json) : bool :=
  match field raw "title" with
  | Some (JArr _) | Some (JObj _) => false
  | _ => true
  end.

(** Some row of [rows] carries the ID [n]. *)
Definition has_id (rows : list (list cell)) (n : nat) : Prop :=
  ∃ r, r ∈ rows ∧ row_id r = Some n.

Definition search_url : string := "https://serpapi.com/search".

(** What [fetch] returns for an outcome of the GET. *)
Definition fetch_value (o : http_outcome) : json :=
  match o with
  | Response status (Json j) => if decide (status = 200%Z) then j else JObj []
  | _ => JObj []
  end.

(** The diagnostics [fetch] prints for an outcome of the GET. *)
Definition fetch_log (url : string) (o : http_outcome) : list string :=
  match o with
  | Response status b =>
      if decide (status = 200%Z) then
        match b with
        | Json _ => []
        | Undecodable e => ["Error fetching data from " ++ url ++ ": " ++ e]
        end
      else ["Error: Received status code " ++ pretty status ++ " from " ++ url]
  | TransportFailure e => ["Error fetching data from " ++ url ++ ": " ++ e]
  end.

(** The failures of §4.1: a status other than 200, or no response at all. *)
Definition failed (o : http_outcome) : Prop :=
  match o with
  | Response status _ => status ≠ 200%Z
  | TransportFailure _ => True
  end.

(** The request for page [j] of a query, and what the world answers to it
    when it is the [j]-th request made from world [w] on. *)
Definition page_request (SERPAPI_KEY query : string) (j : nat) : string * params :=
  (search_url, search_params SERPAPI_KEY query (10 * Z.of_nat j)).

Definition page_outcome (SERPAPI_KEY : string) (w : world) (query : string)
    (j : nat) : http_outcome :=
  net w (length (sent w) + j) search_url
      (search_params SERPAPI_KEY query (10 * Z.of_nat j)).

Definition page_items (SERPAPI_KEY : string) (w : world) (query : string)
    (j : nat) : pyres (list json) :=
  page ← py_get (fetch_value (page_outcome SERPAPI_KEY w query j))
                "organic_results" (JArr []) ;;;
  py_iter page.

(** The items of page [j], none when the page cannot be read. *)
Definition page_list (SERPAPI_KEY : string) (w : world) (query : string)
    (j : nat) : list json :=
  match page_items SERPAPI_KEY w query j with
  | Ok items => items
  | Raise _ => []
  end.

Definition prompt : string := "Enter search keyword (or type 'exit' to quit): ".

(** A file system in which [dir] is a directory without subdirectories
    that accepts new files: [open] succeeds on a name directly inside it
    and raises [FileNotFoundError] on a path that runs through a
    subdirectory or lies elsewhere. *)
Fixpoint strip_prefix (p s : string) : option string :=
  match p, s with
  | EmptyString, _ => Some s
  | String a p', String b s' => if decide (a = b) then strip_prefix p' s' else None
  | String _ _, EmptyString => None
  end.

Fixpoint has_slash (s : string) : bool :=
  match s with
  | EmptyString => false
  | String c s' => if decide (c = "/"%char) then true else has_slash s'
  end.

Definition flat_directory (dir path : string) : pyres unit :=
  match strip_prefix (dir ++ "/") path with
  | Some name =>
      if has_slash name then Raise (Raised "FileNotFoundError") else Ok ()
  | None => Raise (Raised "FileNotFoundError")
  end.

(** ** Sample data *)

Definition paper (title authors link : string) : json :=
  JObj [("Type", JStr "Research Paper"); ("Title", JStr title);
        ("Authors/Inventors", JStr authors); ("Link/Patent Number", JStr link)].

(** A world whose network is down and whose file system is empty. *)
Definition offline : world :=
  {| net := λ _ _ _, TransportFailure "Cannot connect to host";
     sent := [];
     clock := λ _, "2024-05-17_09-30-00";
     ticks := 0;
     os_open := flat_directory "/srv/research_results";
     fs := ∅;
     stdout := [] |}.

Definition raw_smith : json :=
  JObj [("title", JStr "Paper A"); ("link", JStr "http://x");
        ("publication_info",
         JObj [("summary", JStr "J Smith, K Lee - 2020");
               ("authors", JArr [JObj [("name", JStr "J. Smith")];
                                 JObj [("author_id", JStr "k9")]])])].

Definition raw_bare : json :=
  JObj [("title", JStr "Paper A"); ("link", JStr "http://y")].

Definition raw_untitled (link : string) : json :=
  JObj [("link", JStr link)].

Definition full_page : json :=
  JObj [("organic_results", JArr (replicate 10 raw_bare))].

(** A world whose provider answers every request with a full page. *)
Definition plentiful : world :=
  {| net := λ _ _ _, Response 200 (Json full_page);
     sent := [];
     clock := λ _, "2024-05-17_09-30-00";
     ticks := 0;
     os_open := flat_directory "/srv/research_results";
     fs := ∅;
     stdout := [] |}.

(** A world whose provider answers two full pages and then status 500. *)
Definition flaky : world :=
  {| net := λ n _ _, if n <? 2 then Response 200 (Json full_page)
                     else Response 500 (Undecodable "Internal Server Error");
     sent := [];
     clock := λ _, "2024-05-17_09-30-00";
     ticks := 0;
     os_open := flat_directory "/srv/research_results";
     fs := ∅;
     stdout := [] |}.

(** ** Module initialisation, lines 8-21 *)

Inductive startup_error : Type :=
  | ValueError
  | FileExistsError.

(** What the module sees of its process when it is loaded: the environment
    variables, the working directory (an existing directory), the
    directories and the other files of the file system. *)
Record host : Type := {
  environ : gmap string string;
  cwd : string;
  directories : gset string;
  regular_files : gset string;
}.

(** [os.makedirs(path, exist_ok=True)] below an existing directory. *)
Definition makedirs_exist_ok (path : string) (h : host)
    : (startup_error + unit) * host :=
  if decide (path ∈ directories h) then (inr (), h)
  else if decide (path ∈ regular_files h) then (inl FileExistsError, h)
  else (inr (),
        {| environ := environ h; cwd := cwd h;
           directories := {[path]} ∪ directories h;
           regular_files := regular_files h |}).

(** Loading the module: the values of [SERPAPI_KEY] and [SAVE_DIRECTORY],
    or the exception that stops the script. *)
Definition startup (h : host) : (startup_error + string * string) * host :=
  match environ h !! "SERPAPI_KEY" with
  | None => (inl ValueError, h)
  | Some SERPAPI_KEY =>
      if bool_decide (SERPAPI_KEY = "") then (inl ValueError, h)
      else
        let SAVE_DIRECTORY := path_join (cwd h) "research_results" in
        match makedirs_exist_ok SAVE_DIRECTORY h with
        | (inl e, h') => (inl e, h')
        | (inr _, h') => (inr (SERPAPI_KEY, SAVE_DIRECTORY), h')
        end
  end.

(** The spellings [str.lower] maps to the exit keyword. *)
Definition exit_spelling (query : string) : Prop :=
  ∃ c1 c2 c3 c4,
    query = String c1 (String c2 (String c3 (String c4 EmptyString))) ∧
    (c1 = "e" ∨ c1 = "E")%char ∧ (c2 = "x" ∨ c2 = "X")%char ∧
    (c3 = "i" ∨ c3 = "I")%char ∧ (c4 = "t" ∨ c4 = "T")%char.

(** The number of offsets [range(0, num_results, 10)] runs through. *)
Definition page_count (num_results : Z) : nat :=
  Z.to_nat ((num_results + 9) / 10).

Definition laptop : host :=
  {| environ := {["HOME" := "/home/ada"; "SERPAPI_KEY" := "k3y"]};
     cwd := "/home/ada/papers";
     directories := {["/home/ada/papers"]};
     regular_files := ∅ |}.

(** A world whose provider answers one full page and then a body whose
    [organic_results] is [null]. *)
Definition broken : world :=
  {| net := λ n _ _, if n <? 1 then Response 200 (Json full_page)
                     else Response 200 (Json (JObj [("organic_results", JNull)]));
     sent := [];
     clock := λ _, "2024-05-17_09-30-00";
     ticks := 0;
     os_open := flat_directory "/srv/research_results";
     fs := ∅;
     stdout := [] |}.

(** The world after the clock was read once. *)
Definition clock_read (w : world) : world :=
  {| net := net w; sent := sent w; clock := clock w; ticks := S (ticks w);
     os_open := os_open w; fs := fs w; stdout := stdout w |}.

(** The world after the clock was read once and [rows] were written to
    [path]. *)
Definition saved (path : string) (rows : list (list cell)) (w : world) : world :=
  {| net := net w; sent := sent w; clock := clock w; ticks := S (ticks w);
     os_open := os_open w; fs := <[path := rows]> (fs w); stdout := stdout w |}.

(** ** The writer's loop *)

Lemma row_of_id idx item : writable item → row_id (row_of idx item) = Some idx.
Proof. intros [t Ht]. destruct item; try discriminate Ht. reflexivity. Qed.

Lemma write_rows_unfold idx seen item rest t :
  record_title item = Some t →
  write_rows idx seen (item :: rest) =
    if decide (t ∈ seen) then write_rows (S idx) seen rest
    else (row_of idx item :: (write_rows (S idx) ({[t]} ∪ seen) rest).1,
          (write_rows (S idx) ({[t]} ∪ seen) rest).2).
Proof.
  intros Ht. destruct item as [| | | | |kvs]; try discriminate Ht.
  simpl in *.
  destruct (hash_key (default (JStr "N/A") (dict_get kvs "Title"))) as [k|e];
    [|discriminate Ht].
  injection Ht as ->.
  destruct (decide (t ∈ seen)); [reflexivity|].
  by destruct (write_rows (S idx) ({[t]} ∪ seen) rest).
Qed.

Lemma first_occurrence_skip seen item rest t i it :
  record_title item = Some t → t ∈ seen →
  first_occurrence seen (item :: rest) i it ↔
  ∃ i', i = S i' ∧ first_occurrence seen rest i' it.
Proof.
  intros Ht Hin. split.
  - intros [Hl (t' & Ht' & Hns & Hfirst)]. destruct i as [|i'].
    + simpl in Hl. injection Hl as <-. congruence.
    + exists i'. split; [done|]. split; [done|].
      exists t'. repeat split; try done.
      intros j item' Hj Hl'. apply (Hfirst (S j) item'); [lia|done].
  - intros (i' & -> & Hl & t' & Ht' & Hns & Hfirst). split; [done|].
    exists t'. repeat split; try done.
    intros [|j] item' Hj Hl'; simpl in Hl'.
    + injection Hl' as <-. congruence.
    + apply (Hfirst j item'); [lia|done].
Qed.

Lemma first_occurrence_keep seen item rest t i it :
  record_title item = Some t → t ∉ seen →
  first_occurrence seen (item :: rest) i it ↔
  (i = 0 ∧ it = item) ∨
  ∃ i', i = S i' ∧ first_occurrence ({[t]} ∪ seen) rest i' it.
Proof.
  intros Ht Hnin. split.
  - intros [Hl (t' & Ht' & Hns & Hfirst)]. destruct i as [|i'].
    + left. simpl in Hl. by injection Hl as <-.
    + right. exists i'. split; [done|]. split; [done|].
      exists t'. split; [done|]. split.
      * assert (t ≠ t') as Hne.
        { intros <-. by apply (Hfirst 0 item); [lia| |]. }
        rewrite elem_of_union, elem_of_singleton. intros [->|?]; done.
      * intros j item' Hj Hl'. apply (Hfirst (S j) item'); [lia|done].
  - intros [[-> ->]|(i' & -> & Hl & t' & Ht' & Hns & Hfirst)].
    + split; [done|]. exists t. repeat split; try done. lia.
    + split; [done|]. exists t'. split; [done|]. split; [set_solver|].
      intros [|j] item' Hj Hl'; simpl in Hl'.
      * injection Hl' as <-. rewrite Ht. intros [= <-]. set_solver.
      * apply (Hfirst j item'); [lia|done].
Qed.

Lemma distinct_titles_cons item rest t :
  record_title item = Some t →
  distinct_titles (item :: rest) = {[t]} ∪ distinct_titles rest.
Proof. intros Ht. unfold distinct_titles. simpl. by rewrite Ht. Qed.

Lemma fst_shift (kept : list (nat * json)) :
  (prod_map S id <$> kept).*1 = S <$> kept.*1.
Proof.
  rewrite <- !list_fmap_compose. apply list_fmap_ext. by intros _ [i it] _.
Qed.

(** What the loop does on records it accepts: the rows are those of the
    first occurrences, in input order, each numbered by its position. *)
Lemma write_rows_spec results : ∀ idx seen,
  Forall writable results →
  ∃ kept : list (nat * json),
    write_rows idx seen results =
      (map (λ p, row_of (idx + p.1) p.2) kept, Ok ()) ∧
    StronglySorted lt kept.*1 ∧
    (∀ i item, (i, item) ∈ kept ↔ first_occurrence seen results i item) ∧
    length kept = size (distinct_titles results ∖ seen).
Proof.
  induction results as [|item rest IH]; intros idx seen Hw.
  - exists []. split; [done|]. split; [constructor|]. split.
    + intros i item. split; [intros Hin; inversion Hin|].
      intros [Hl _]. done.
    + symmetry. apply size_empty_iff, equiv_empty. intros x Hx.
      apply elem_of_difference in Hx as [Hx _]. inversion Hx.
  - apply Forall_cons in Hw as [[t Ht] Hw].
    rewrite (write_rows_unfold _ _ _ _ _ Ht), (distinct_titles_cons _ _ _ Ht).
    destruct (decide (t ∈ seen)) as [Hin|Hnin].
    + destruct (IH (S idx) seen Hw) as (kept & Heq & Hsort & Hmem & Hlen).
      exists (prod_map S id <$> kept). split; [|split; [|split]].
      * rewrite Heq. f_equal. rewrite <- list_fmap_compose.
        apply list_fmap_ext. intros _ [i it] _. simpl. f_equal. lia.
      * rewrite fst_shift.
        apply (StronglySorted_fmap S lt lt); [|done]. intros ???. lia.
      * intros i it. rewrite (first_occurrence_skip _ _ _ _ _ _ Ht Hin).
        rewrite list_elem_of_fmap. split.
        -- intros ([i' it'] & [= -> ->] & Hk). exists i'. split; [done|].
           by apply Hmem.
        -- intros (i' & -> & Hf). exists (i', it). split; [done|]. by apply Hmem.
      * rewrite length_fmap, Hlen. f_equal. apply set_eq. intros x.
        rewrite !elem_of_difference, elem_of_union, elem_of_singleton.
        naive_solver.
    + destruct (IH (S idx) ({[t]} ∪ seen) Hw) as (kept & Heq & Hsort & Hmem & Hlen).
      exists ((0, item) :: (prod_map S id <$> kept)). split; [|split; [|split]].
      * rewrite Heq. simpl. rewrite Nat.add_0_r. f_equal. f_equal.
        rewrite <- list_fmap_compose.
        apply list_fmap_ext. intros _ [i it] _. simpl. f_equal. lia.
      * rewrite fmap_cons. simpl. constructor.
        -- rewrite fst_shift.
           apply (StronglySorted_fmap S lt lt); [|done]. intros ???. lia.
        -- rewrite fst_shift. apply Forall_fmap, Forall_forall.
           intros i _. simpl. lia.
      * intros i it. rewrite (first_occurrence_keep _ _ _ _ _ _ Ht Hnin).
        rewrite elem_of_cons, list_elem_of_fmap. split.
        -- intros [[= -> ->]|([i' it'] & [= -> ->] & Hk)]; [by left|right].
           exists i'. split; [done|]. by apply Hmem.
        -- intros [[-> ->]|(i' & -> & Hf)]; [by left|right].
           exists (i', it). split; [done|]. by apply Hmem.
      * simpl. rewrite length_fmap, Hlen.
        assert (({[t]} ∪ distinct_titles rest) ∖ seen =
                {[t]} ∪ distinct_titles rest ∖ ({[t]} ∪ seen)) as ->.
        { apply set_eq. intros x.
          rewrite !elem_of_difference, !elem_of_union, elem_of_difference,
            elem_of_union, elem_of_singleton.
          destruct (decide (x = t)); naive_solver. }
        rewrite (size_union {[t]} (distinct_titles rest ∖ ({[t]} ∪ seen)));
          [by rewrite size_singleton|].
        intros x. rewrite elem_of_singleton, elem_of_difference, elem_of_union,
          elem_of_singleton. naive_solver.
Qed.

Lemma sorted_lookup_lt (l : list nat) : StronglySorted lt l →
  ∀ k1 k2 a b, l !! k1 = Some a → l !! k2 = Some b → k1 < k2 → a < b.
Proof.
  induction 1 as [|x l Hs IH Hx]; intros k1 k2 a b H1 H2 Hlt; [done|].
  destruct k2 as [|k2]; [lia|]. simpl in H2.
  destruct k1 as [|k1]; simpl in H1.
  - injection H1 as <-. rewrite Forall_forall in Hx. apply Hx.
    by apply list_elem_of_lookup_2 in H2.
  - apply (IH k1 k2); [done..|lia].
Qed.

Lemma sorted_lookup_ge (l : list nat) : StronglySorted lt l →
  ∀ k i, l !! k = Some i → k ≤ i.
Proof.
  intros Hs. induction k as [|k IH]; intros i Hi; [lia|].
  destruct (lookup_lt_is_Some_2 l k) as [a Ha].
  { apply lookup_lt_Some in Hi. lia. }
  specialize (IH a Ha).
  pose proof (sorted_lookup_lt l Hs k (S k) a i Ha Hi). lia.
Qed.

(** With pairwise distinct titles no record is skipped. *)
Lemma write_rows_nodup results : ∀ idx seen,
  Forall writable results →
  NoDup (omap record_title results) →
  (∀ t, t ∈ omap record_title results → t ∉ seen) →
  write_rows idx seen results =
    (imap (λ i item, row_of (idx + i) item) results, Ok ()).
Proof.
  induction results as [|item rest IH]; intros idx seen Hw Hnd Hfresh; [done|].
  apply Forall_cons in Hw as [[t Ht] Hw].
  rewrite (write_rows_unfold _ _ _ _ _ Ht).
  simpl in Hnd, Hfresh. rewrite Ht in Hnd, Hfresh. simpl in Hnd, Hfresh.
  apply NoDup_cons in Hnd as [Hnt Hnd].
  rewrite decide_False by (apply Hfresh; left).
  rewrite (IH (S idx) ({[t]} ∪ seen) Hw Hnd).
  - simpl. rewrite Nat.add_0_r. f_equal. f_equal.
    apply imap_ext. intros i x _. simpl. f_equal. lia.
  - intros t' Ht'. rewrite elem_of_union, elem_of_singleton.
    intros [->|Hs]; [done|]. revert Hs. apply Hfresh. by right.
Qed.

Lemma save_results_nonempty SAVE_DIRECTORY results query w :
  results ≠ [] →
  can_save SAVE_DIRECTORY query w →
  (write_rows 1 ∅ results).2 = Ok () →
  (save_results SAVE_DIRECTORY results query w).1 = Ok () ∧
  fs (save_results SAVE_DIRECTORY results query w).2 =
    <[output_file SAVE_DIRECTORY query w :=
        header :: (write_rows 1 ∅ results).1]> (fs w) ∧
  sent (save_results SAVE_DIRECTORY results query w).2 = sent w.
Proof.
  intros Hne Hopen Hok. destruct results as [|item rest]; [done|].
  unfold save_results. destruct (write_rows 1 ∅ (item :: rest)) as [rows r].
  simpl in Hok. subst r.
  unfold bind, now_strftime, write_file, lift, print. cbn [os_open].
  unfold can_save, output_file in Hopen. by rewrite Hopen.
Qed.

Lemma first_occurrence_title_inj seen results i j it it' :
  first_occurrence seen results i it →
  first_occurrence seen results j it' →
  record_title it = record_title it' → i = j.
Proof.
  intros [Hi (t & Ht & _ & Hfi)] [Hj (t' & Ht' & _ & Hfj)] Heq.
  assert (t = t') as <- by congruence.
  destruct (Nat.lt_trichotomy i j) as [Hlt|[->|Hlt]]; [|done|].
  - by destruct (Hfj i it Hlt Hi).
  - by destruct (Hfi j it' Hlt Hj).
Qed.

Lemma save_results_spec SAVE_DIRECTORY results query w :
  Forall writable results →
  (results ≠ [] → can_save SAVE_DIRECTORY query w) →
  ∃ kept : list (nat * json),
    write_rows 1 ∅ results = (map (λ p, row_of (S p.1) p.2) kept, Ok ()) ∧
    (save_results SAVE_DIRECTORY results query w).1 = Ok () ∧
    fs (save_results SAVE_DIRECTORY results query w).2 =
      match results with
      | [] => fs w
      | _ :: _ =>
          <[output_file SAVE_DIRECTORY query w :=
              header :: map (λ p, row_of (S p.1) p.2) kept]> (fs w)
      end ∧
    StronglySorted lt kept.*1 ∧
    (∀ i item, (i, item) ∈ kept ↔ first_occurrence ∅ results i item) ∧
    length kept = size (distinct_titles results).
Proof.
  intros Hw Hopen.
  destruct (write_rows_spec results 1 ∅ Hw) as (kept & Heq & Hsort & Hmem & Hlen).
  exists kept.
  assert (distinct_titles results ∖ ∅ = distinct_titles results) as Hd.
  { apply set_eq. intros x. rewrite elem_of_difference.
    pose proof (not_elem_of_empty (C := gset key) x). naive_solver. }
  rewrite Hd in Hlen. split; [done|]. split; [|split; [|done]].
  - destruct results; [done|].
    apply save_results_nonempty; [done|by apply Hopen|].
    by rewrite Heq.
  - destruct results as [|item rest]; [done|].
    destruct (save_results_nonempty SAVE_DIRECTORY (item :: rest) query w)
      as (_ & -> & _); [done|by apply Hopen|by rewrite Heq|].
    by rewrite Heq.
Qed.

(** C2: the data rows written are exactly the first occurrences of the
    titles of the input, in input order: their number is the number of
    distinct titles, no two of them share a title, and a record is written
    if and only if no earlier record has its title. On the empty sequence
    nothing is written. The records are dicts with hashable titles, and
    [open] accepts the path when there is something to write. *)
Theorem save_results_dedup SAVE_DIRECTORY results query w :
  Forall writable results →
  (results ≠ [] → can_save SAVE_DIRECTORY query w) →
  ∃ kept : list (nat * json),
    let rows := map (λ p, row_of (S p.1) p.2) kept in
    (save_results SAVE_DIRECTORY results query w).1 = Ok () ∧
    fs (save_results SAVE_DIRECTORY results query w).2 =
      match results with
      | [] => fs w
      | _ :: _ => <[output_file SAVE_DIRECTORY query w := header :: rows]> (fs w)
      end ∧
    length rows = size (distinct_titles results) ∧
    (∀ i item, (i, item) ∈ kept ↔ first_occurrence ∅ results i item) ∧
    StronglySorted lt kept.*1 ∧
    (∀ i j it it', (i, it) ∈ kept → (j, it') ∈ kept →
                   record_title it = record_title it' → i = j).
Proof.
  intros Hw Hopen.
  destruct (save_results_spec SAVE_DIRECTORY results query w Hw Hopen)
    as (kept & _ & Hok & Hfs & Hsort & Hmem & Hlen).
  exists kept. cbv zeta. split; [done|]. split; [done|].
  split; [by rewrite length_map|]. split; [done|]. split; [done|].
  intros i j it it' Hi Hj. apply Hmem in Hi, Hj.
  by apply (first_occurrence_title_inj ∅ results).
Qed.

Lemma save_results_dedup_witness :
  Forall writable [paper "Paper A" "J. Smith" "http://x";
                   paper "Paper A" "N/A" "http://y"] ∧
  can_save "/srv/research_results" "a" offline ∧
  ∃ kept : list (nat * json),
    let rows := map (λ p, row_of (S p.1) p.2) kept in
    (save_results "/srv/research_results"
       [paper "Paper A" "J. Smith" "http://x"; paper "Paper A" "N/A" "http://y"]
       "a" offline).1 = Ok () ∧
    fs (save_results "/srv/research_results"
       [paper "Paper A" "J. Smith" "http://x"; paper "Paper A" "N/A" "http://y"]
       "a" offline).2 =
      <[output_file "/srv/research_results" "a" offline := header :: rows]>
        (fs offline) ∧
    length rows =
      size (distinct_titles [paper "Paper A" "J. Smith" "http://x";
                             paper "Paper A" "N/A" "http://y"]) ∧
    (∀ i item, (i, item) ∈ kept ↔
       first_occurrence ∅ [paper "Paper A" "J. Smith" "http://x";
                           paper "Paper A" "N/A" "http://y"] i item) ∧
    StronglySorted lt kept.*1 ∧
    (∀ i j it it', (i, it) ∈ kept → (j, it') ∈ kept →
                   record_title it = record_title it' → i = j).
Proof.
  assert (Forall writable [paper "Paper A" "J. Smith" "http://x";
                           paper "Paper A" "N/A" "http://y"]) as Hw.
  { repeat constructor; by eexists. }
  split; [exact Hw|]. split; [reflexivity|].
  exact (save_results_dedup "/srv/research_results" _ "a" offline Hw
           (λ _, eq_refl)).
Defined.

(** C1, as the specification words it, fails: the ID of a row is the
    counter of [enumerate], which also advances on a skipped duplicate.
    For the titles A, A, B the second row written carries ID 3. *)
Lemma save_results_ids_not_sequential :
  ¬ (∀ SAVE_DIRECTORY results query w rows,
       Forall writable results →
       can_save SAVE_DIRECTORY query w →
       fs (save_results SAVE_DIRECTORY results query w).2
         !! output_file SAVE_DIRECTORY query w = Some (header :: rows) →
       ∀ k r, rows !! k = Some r → row_id r = Some (S k)).
Proof.
  intros Hclaim.
  specialize (Hclaim "/srv/research_results"
    [paper "A" "N/A" "http://x"; paper "A" "N/A" "http://y";
     paper "B" "N/A" "http://z"]
    "a" offline
    [row_of 1 (paper "A" "N/A" "http://x"); row_of 3 (paper "B" "N/A" "http://z")]).
  assert (row_id (row_of 3 (paper "B" "N/A" "http://z")) = Some 2) as Habs.
  { apply (Hclaim ltac:(repeat constructor; by eexists) eq_refl
                  ltac:(apply lookup_insert_eq) 1). reflexivity. }
  discriminate Habs.
Qed.

(** C1 (amended): every row written carries as ID the 1-based position of
    its record in the input sequence, skipped duplicates counted. The IDs
    strictly increase down the file, the ID of the k-th row is at least k,
    and it is k for every row when the titles are pairwise distinct. The
    records are dicts with hashable titles, and [open] accepts the path
    when there is something to write. *)
Theorem save_results_ids SAVE_DIRECTORY results query w :
  Forall writable results →
  (results ≠ [] → can_save SAVE_DIRECTORY query w) →
  ∃ rows,
    (save_results SAVE_DIRECTORY results query w).1 = Ok () ∧
    fs (save_results SAVE_DIRECTORY results query w).2 =
      match results with
      | [] => fs w
      | _ :: _ => <[output_file SAVE_DIRECTORY query w := header :: rows]> (fs w)
      end ∧
    (∀ k r, rows !! k = Some r →
       ∃ i item, results !! i = Some item ∧ r = row_of (S i) item ∧
                 row_id r = Some (S i) ∧ k ≤ i) ∧
    (∀ k1 k2 r1 r2 n1 n2,
       rows !! k1 = Some r1 → rows !! k2 = Some r2 →
       row_id r1 = Some n1 → row_id r2 = Some n2 → k1 < k2 → n1 < n2) ∧
    (NoDup (omap record_title results) →
     ∀ k r, rows !! k = Some r → row_id r = Some (S k)).
Proof.
  intros Hw Hopen.
  destruct (save_results_spec SAVE_DIRECTORY results query w Hw Hopen)
    as (kept & Heq & Hok & Hfs & Hsort & Hmem & _).
  exists (map (λ p, row_of (S p.1) p.2) kept).
  assert (∀ k r, map (λ p, row_of (S p.1) p.2) kept !! k = Some r →
            ∃ i item, kept !! k = Some (i, item) ∧ results !! i = Some item ∧
                      r = row_of (S i) item ∧ row_id r = Some (S i)) as Hrow.
  { intros k r Hk. apply list_lookup_fmap_Some in Hk as ([i item] & -> & Hk).
    exists i, item. simpl.
    destruct (proj1 (Hmem i item)) as [Hi (t & Ht & _)].
    { by apply list_elem_of_lookup_2 in Hk. }
    repeat split; try done. apply row_of_id. by exists t. }
  split; [done|]. split; [done|]. split; [|split].
  - intros k r Hk. destruct (Hrow k r Hk) as (i & item & Hkept & Hi & -> & Hid).
    exists i, item. repeat split; try done.
    apply (sorted_lookup_ge _ Hsort). by rewrite list_lookup_fmap, Hkept.
  - intros k1 k2 r1 r2 n1 n2 Hk1 Hk2 Hn1 Hn2 Hlt.
    destruct (Hrow k1 r1 Hk1) as (i1 & it1 & Hkept1 & _ & _ & Hid1).
    destruct (Hrow k2 r2 Hk2) as (i2 & it2 & Hkept2 & _ & _ & Hid2).
    assert (i1 < i2); [|congruence || (simplify_eq; lia)].
    apply (sorted_lookup_lt _ Hsort k1 k2); [| |done].
    + by rewrite list_lookup_fmap, Hkept1.
    + by rewrite list_lookup_fmap, Hkept2.
  - intros Hnd k r Hk.
    assert (map (λ p, row_of (S p.1) p.2) kept =
            imap (λ i item, row_of (S i) item) results) as Hall.
    { rewrite (write_rows_nodup results 1 ∅ Hw Hnd) in Heq.
      - by injection Heq as <-.
      - intros t _. apply not_elem_of_empty. }
    rewrite Hall in Hk. apply list_lookup_imap_Some in Hk as (item & Hi & ->).
    apply row_of_id. rewrite Forall_forall in Hw. apply Hw.
    by apply list_elem_of_lookup_2 in Hi.
Qed.

Lemma save_results_ids_witness :
  Forall writable [paper "A" "N/A" "http://x"; paper "A" "N/A" "http://y";
                   paper "B" "N/A" "http://z"] ∧
  can_save "/srv/research_results" "a" offline ∧
  ∃ rows,
    (save_results "/srv/research_results"
       [paper "A" "N/A" "http://x"; paper "A" "N/A" "http://y";
        paper "B" "N/A" "http://z"] "a" offline).1 = Ok () ∧
    fs (save_results "/srv/research_results"
       [paper "A" "N/A" "http://x"; paper "A" "N/A" "http://y";
        paper "B" "N/A" "http://z"] "a" offline).2 =
      <[output_file "/srv/research_results" "a" offline := header :: rows]>
        (fs offline) ∧
    (∀ k r, rows !! k = Some r →
       ∃ i item,
         [paper "A" "N/A" "http://x"; paper "A" "N/A" "http://y";
          paper "B" "N/A" "http://z"] !! i = Some item ∧
         r = row_of (S i) item ∧ row_id r = Some (S i) ∧ k ≤ i) ∧
    (∀ k1 k2 r1 r2 n1 n2,
       rows !! k1 = Some r1 → rows !! k2 = Some r2 →
       row_id r1 = Some n1 → row_id r2 = Some n2 → k1 < k2 → n1 < n2) ∧
    (NoDup (omap record_title
              [paper "A" "N/A" "http://x"; paper "A" "N/A" "http://y";
               paper "B" "N/A" "http://z"]) →
     ∀ k r, rows !! k = Some r → row_id r = Some (S k)).
Proof.
  assert (Forall writable [paper "A" "N/A" "http://x"; paper "A" "N/A" "http://y";
                           paper "B" "N/A" "http://z"]) as Hw.
  { repeat constructor; by eexists. }
  split; [exact Hw|]. split; [reflexivity|].
  exact (save_results_ids "/srv/research_results" _ "a" offline Hw
           (λ _, eq_refl)).
Defined.

(** C8: on the empty sequence the writer opens no file: the file system,
    the clock and the network are untouched, the call returns normally,
    and the only effect is the line reporting that no results were found. *)
Theorem save_results_empty SAVE_DIRECTORY query w :
  (save_results SAVE_DIRECTORY [] query w).1 = Ok () ∧
  fs (save_results SAVE_DIRECTORY [] query w).2 = fs w ∧
  stdout (save_results SAVE_DIRECTORY [] query w).2 =
    (stdout w ++ ["No results found. Skipping file save."])%list ∧
  ticks (save_results SAVE_DIRECTORY [] query w).2 = ticks w ∧
  sent (save_results SAVE_DIRECTORY [] query w).2 = sent w.
Proof. done. Qed.

(** ** The formatter *)

Lemma rmap_ok {A B} (f : A → pyres B) (g : A → B) (l : list A) :
  Forall (λ a, f a = Ok (g a)) l → rmap f l = Ok (map g l).
Proof.
  induction 1 as [|a l Ha _ IH]; [done|]. simpl. by rewrite Ha, IH.
Qed.

Lemma py_join_strings sep (l : list string) :
  py_join sep (map JStr l) = Ok (String.concat sep l).
Proof.
  induction l as [|s [|s' l] IH]; [done..|].
  change (py_join sep (map JStr (s :: s' :: l)))
    with (t ← py_join sep (map JStr (s' :: l)) ;;; Ok (s ++ sep ++ t)).
  by rewrite IH.
Qed.

Lemma author_names_ok (l : list json) :
  forallb author_ok l = true →
  rmap (λ author, py_get author "name" (JStr "N/A")) l =
    Ok (map JStr (map name_of l)).
Proof.
  intros Hok. rewrite map_map. apply rmap_ok.
  apply Forall_forall. intros a Ha.
  rewrite forallb_forall in Hok. apply list_elem_of_In, Hok in Ha.
  destruct a as [| | | | |kvs]; try discriminate Ha. simpl in *.
  destruct (dict_get kvs "name") as [[]|]; done.
Qed.

Lemma author_names_spec authors :
  authors_ok authors = true →
  (if truthy authors
   then items ← py_iter authors ;;;
        rmap (λ author, py_get author "name" (JStr "N/A")) items
   else Ok [JStr "N/A"]) = Ok (map JStr (names_of authors)).
Proof.
  intros Hok.
  destruct authors as [|b|n|s|l|akvs];
    try (unfold authors_ok in Hok; apply negb_true_iff in Hok; by rewrite Hok).
  destruct l as [|a l]; [done|].
  change (truthy (JArr (a :: l))) with true.
  exact (author_names_ok (a :: l) Hok).
Qed.

Lemma format_result_formatted raw :
  well_typed_raw raw = true → format_result raw = Ok (formatted raw).
Proof.
  intros Hwt. destruct raw as [| | | | |kvs]; try discriminate Hwt.
  unfold format_result, formatted, authors_string, authors_of, well_typed_raw in *.
  cbn [py_get rbind field].
  destruct (dict_get kvs "publication_info") as [[| | | | |pkvs]|];
    try discriminate Hwt; cbn [default from_option id py_get rbind]; [|done].
  destruct (dict_get pkvs "authors") as [authors|];
    cbn [default from_option id]; [|done].
  rewrite (author_names_spec authors Hwt). cbn [rbind].
  rewrite py_join_strings. cbn [rbind].
  by destruct authors as [| | | |[|a l]|].
Qed.

Lemma format_spec raws :
  Forall (λ raw, well_typed_raw raw = true) raws →
  format_google_scholar_results raws = Ok (map formatted raws).
Proof.
  intros Hwt. apply rmap_ok. eapply Forall_impl; [exact Hwt|].
  intros raw. apply format_result_formatted.
Qed.

Lemma name_of_spec author :
  author_ok author = true →
  ∃ kvs, author = JObj kvs ∧
    ((dict_get kvs "name" = None ∧ name_of author = "N/A") ∨
     (∃ s, dict_get kvs "name" = Some (JStr s) ∧ name_of author = s)).
Proof.
  destruct author as [| | | | |kvs]; try discriminate. simpl. intros Hok.
  exists kvs. split; [done|].
  destruct (dict_get kvs "name") as [[| | |s| |]|]; try discriminate Hok.
  - right. by exists s.
  - by left.
Qed.

(** C3: for a raw result whose [publication_info] holds an [authors] list
    of length at least one, the authors field of its formatted record is
    the names of the entries, in list order, joined by [", "], where an
    entry without a [name] contributes ["N/A"]. *)
Theorem format_authors_joined raws i raw a l :
  Forall (λ raw, well_typed_raw raw = true) raws →
  raws !! i = Some raw →
  authors_of raw = Some (JArr (a :: l)) →
  ∃ recs rec,
    format_google_scholar_results raws = Ok recs ∧
    recs !! i = Some rec ∧
    field rec "Authors/Inventors" =
      Some (JStr (String.concat ", " (map name_of (a :: l)))) ∧
    Forall (λ author, ∃ kvs, author = JObj kvs ∧
              ((dict_get kvs "name" = None ∧ name_of author = "N/A") ∨
               (∃ s, dict_get kvs "name" = Some (JStr s) ∧ name_of author = s)))
           (a :: l).
Proof.
  intros Hwt Hi Hau.
  exists (map formatted raws), (formatted raw).
  split; [by apply format_spec|].
  split; [by rewrite list_lookup_fmap, Hi|].
  split.
  - unfold formatted, authors_string. by rewrite Hau.
  - rewrite Forall_forall in Hwt.
    assert (well_typed_raw raw = true) as Hraw.
    { apply Hwt. by apply list_elem_of_lookup_2 in Hi. }
    destruct raw as [| | | | |kvs]; try discriminate Hraw.
    unfold authors_of in Hau. unfold well_typed_raw in Hraw.
    destruct (dict_get kvs "publication_info") as [[| | | | |pkvs]|];
      try discriminate Hau.
    rewrite Hau in Hraw. unfold authors_ok in Hraw.
    apply Forall_forall. intros author Hin. apply name_of_spec.
    rewrite forallb_forall in Hraw. apply Hraw. by apply list_elem_of_In.
Qed.

(** C4: for a raw result without any [authors] field the authors field of
    its formatted record is the string ["N/A"], not the empty string. *)
Theorem format_authors_absent raws i raw :
  Forall (λ raw, well_typed_raw raw = true) raws →
  raws !! i = Some raw →
  authors_of raw = None →
  ∃ recs rec,
    format_google_scholar_results raws = Ok recs ∧
    recs !! i = Some rec ∧
    field rec "Authors/Inventors" = Some (JStr "N/A") ∧
    field rec "Authors/Inventors" ≠ Some (JStr "").
Proof.
  intros Hwt Hi Hau.
  exists (map formatted raws), (formatted raw).
  split; [by apply format_spec|].
  split; [by rewrite list_lookup_fmap, Hi|].
  unfold formatted, authors_string. by rewrite Hau.
Qed.

Lemma format_authors_joined_witness :
  ∃ recs rec,
    format_google_scholar_results [raw_smith; raw_bare] = Ok recs ∧
    recs !! 0 = Some rec ∧
    field rec "Authors/Inventors" = Some (JStr "J. Smith, N/A") ∧
    Forall (λ author, ∃ kvs, author = JObj kvs ∧
              ((dict_get kvs "name" = None ∧ name_of author = "N/A") ∨
               (∃ s, dict_get kvs "name" = Some (JStr s) ∧ name_of author = s)))
           [JObj [("name", JStr "J. Smith")]; JObj [("author_id", JStr "k9")]].
Proof.
  apply (format_authors_joined [raw_smith; raw_bare] 0 raw_smith
           (JObj [("name", JStr "J. Smith")]) [JObj [("author_id", JStr "k9")]]).
  - repeat constructor.
  - reflexivity.
  - reflexivity.
Defined.

Lemma format_authors_absent_witness :
  ∃ recs rec,
    format_google_scholar_results [raw_smith; raw_bare] = Ok recs ∧
    recs !! 1 = Some rec ∧
    field rec "Authors/Inventors" = Some (JStr "N/A") ∧
    field rec "Authors/Inventors" ≠ Some (JStr "").
Proof.
  apply (format_authors_absent [raw_smith; raw_bare] 1 raw_bare).
  - repeat constructor.
  - reflexivity.
  - reflexivity.
Defined.

(** The example of §8: the duplicate-titled second record is dropped and
    the single row is [1,Research Paper,Paper A,J. Smith,http://x]. *)
Example paper_a_twice :
  format_google_scholar_results
    [JObj [("title", JStr "Paper A"); ("link", JStr "http://x");
           ("publication_info",
            JObj [("authors", JArr [JObj [("name", JStr "J. Smith")]])])];
     JObj [("title", JStr "Paper A"); ("link", JStr "http://y")]]
  = Ok [paper "Paper A" "J. Smith" "http://x"; paper "Paper A" "N/A" "http://y"] ∧
  write_rows 1 ∅ [paper "Paper A" "J. Smith" "http://x";
                  paper "Paper A" "N/A" "http://y"]
  = ([[CInt 1; CVal (JStr "Research Paper"); CVal (JStr "Paper A");
       CVal (JStr "J. Smith"); CVal (JStr "http://x")]], Ok ()).
Proof. split; vm_compute; reflexivity. Qed.

(** ** Formatter and writer together *)

Lemma record_title_formatted raw :
  record_title (formatted raw) =
    match hash_key (default (JStr "N/A") (field raw "title")) with
    | Ok k => Some k
    | Raise _ => None
    end.
Proof. reflexivity. Qed.

Lemma formatted_writable raw : title_ok raw = true → writable (formatted raw).
Proof.
  unfold writable, title_ok. rewrite record_title_formatted.
  destruct (field raw "title") as [[]|]; try discriminate; by eexists.
Qed.

Lemma hash_key_str v s : hash_key v = Ok (KStr s) ↔ v = JStr s.
Proof.
  split; [|by intros ->].
  destruct v as [|[]| | | |]; simpl; intros [=]; by subst.
Qed.

Lemma has_id_kept (kept : list (nat * json)) j :
  Forall (λ p, writable p.2) kept →
  has_id (map (λ p, row_of (S p.1) p.2) kept) (S j) ↔ ∃ it, (j, it) ∈ kept.
Proof.
  intros Hw. rewrite Forall_forall in Hw. split.
  - intros (r & Hin & Hid). apply list_elem_of_fmap in Hin as ([i it] & -> & Hin).
    simpl in Hid. rewrite (row_of_id _ _ (Hw _ Hin)) in Hid.
    injection Hid as ->. by exists it.
  - intros (it & Hin). exists (row_of (S j) it). split.
    + apply list_elem_of_fmap. by exists (j, it).
    + apply row_of_id. apply (Hw _ Hin).
Qed.

(** C10, as worded, fails when an earlier record carries the literal title
    "N/A": then not even the first titleless record is written. *)
Lemma first_untitled_not_always_written :
  ¬ (∀ SAVE_DIRECTORY raws query w recs rows i raw,
       Forall (λ raw, well_typed_raw raw = true ∧ title_ok raw = true) raws →
       can_save SAVE_DIRECTORY query w →
       format_google_scholar_results raws = Ok recs →
       fs (save_results SAVE_DIRECTORY recs query w).2
         !! output_file SAVE_DIRECTORY query w = Some (header :: rows) →
       raws !! i = Some raw → field raw "title" = None →
       (∀ i' raw', i' < i → raws !! i' = Some raw' → field raw' "title" ≠ None) →
       (∃ j raw', i < j ∧ raws !! j = Some raw' ∧ field raw' "title" = None) →
       has_id rows (S i)).
Proof.
  intros Hclaim.
  destruct (Hclaim "/srv/research_results"
    [JObj [("title", JStr "N/A"); ("link", JStr "http://a")];
     raw_untitled "http://b"; raw_untitled "http://c"]
    "a" offline
    [paper "N/A" "N/A" "http://a"; paper "N/A" "N/A" "http://b";
     paper "N/A" "N/A" "http://c"]
    [row_of 1 (paper "N/A" "N/A" "http://a")]
    1 (raw_untitled "http://b")) as (r & Hin & Hid).
  - repeat constructor.
  - reflexivity.
  - reflexivity.
  - apply lookup_insert_eq.
  - reflexivity.
  - reflexivity.
  - intros [|i'] raw' Hlt Hl; [|lia]. by injection Hl as <-.
  - exists 2, (raw_untitled "http://c"). repeat split. lia.
  - apply list_elem_of_singleton in Hin as ->. discriminate Hid.
Qed.

(** C10 (amended): every raw result without a title is formatted with the
    title "N/A"; such a record is written exactly when no earlier record
    has the title "N/A", be it by default or literally; hence of several
    titleless records at most the first is written and all later ones are
    dropped, whatever their links and authors. The raw results are well
    typed with hashable titles, and [open] accepts the path when there is
    something to write. *)
Theorem untitled_records_collapse SAVE_DIRECTORY raws query w :
  Forall (λ raw, well_typed_raw raw = true ∧ title_ok raw = true) raws →
  (raws ≠ [] → can_save SAVE_DIRECTORY query w) →
  ∃ recs rows,
    format_google_scholar_results raws = Ok recs ∧
    (save_results SAVE_DIRECTORY recs query w).1 = Ok () ∧
    fs (save_results SAVE_DIRECTORY recs query w).2 =
      match recs with
      | [] => fs w
      | _ :: _ => <[output_file SAVE_DIRECTORY query w := header :: rows]> (fs w)
      end ∧
    (∀ j raw, raws !! j = Some raw → field raw "title" = None →
       (∃ rec, recs !! j = Some rec ∧ field rec "Title" = Some (JStr "N/A")) ∧
       (has_id rows (S j) ↔
        ∀ j' raw', j' < j → raws !! j' = Some raw' →
                   default (JStr "N/A") (field raw' "title") ≠ JStr "N/A")) ∧
    (∀ i j raw_i raw_j, i < j →
       raws !! i = Some raw_i → raws !! j = Some raw_j →
       field raw_i "title" = None → field raw_j "title" = None →
       ¬ has_id rows (S j)).
Proof.
  intros Hty Hopen.
  assert (Forall (λ raw, well_typed_raw raw = true) raws) as Hwt.
  { eapply Forall_impl; [exact Hty|]. by intros raw [? _]. }
  assert (Forall writable (map formatted raws)) as Hw.
  { apply Forall_fmap. eapply Forall_impl; [exact Hty|].
    intros raw [_ ?]. by apply formatted_writable. }
  assert (map formatted raws ≠ [] → can_save SAVE_DIRECTORY query w) as Hopen'.
  { intros Hne. apply Hopen. by destruct raws. }
  destruct (save_results_spec SAVE_DIRECTORY (map formatted raws) query w Hw Hopen')
    as (kept & _ & Hok & Hfs & _ & Hmem & _).
  exists (map formatted raws), (map (λ p, row_of (S p.1) p.2) kept).
  assert (Forall (λ p : nat * json, writable p.2) kept) as Hkw.
  { apply Forall_forall. intros [i it] Hin. apply Hmem in Hin as [_ (t & Ht & _)].
    by exists t. }
  assert (∀ j raw, raws !! j = Some raw → field raw "title" = None →
            (has_id (map (λ p, row_of (S p.1) p.2) kept) (S j) ↔
             ∀ j' raw', j' < j → raws !! j' = Some raw' →
                        default (JStr "N/A") (field raw' "title") ≠ JStr "N/A"))
    as Hiff.
  { intros j raw Hj Hnone. rewrite (has_id_kept kept j Hkw). split.
    - intros (it & Hin). apply Hmem in Hin as [Hl (t & Ht & _ & Hfirst)].
      rewrite list_lookup_fmap, Hj in Hl. injection Hl as <-.
      rewrite record_title_formatted, Hnone in Ht. injection Ht as <-.
      intros j' raw' Hlt Hj' Heq.
      apply (Hfirst j' (formatted raw') Hlt).
      + by rewrite list_lookup_fmap, Hj'.
      + by rewrite record_title_formatted, Heq.
    - intros Hearlier. exists (formatted raw). apply Hmem.
      split; [by rewrite list_lookup_fmap, Hj|].
      exists (KStr "N/A"). split; [by rewrite record_title_formatted, Hnone|].
      split; [apply not_elem_of_empty|].
      intros j' item' Hlt Hl.
      apply list_lookup_fmap_Some in Hl as (raw' & -> & Hj').
      rewrite record_title_formatted.
      destruct (hash_key (default (JStr "N/A") (field raw' "title")))
        as [k|e] eqn:Hk; [|done].
      intros [= ->]. apply hash_key_str in Hk.
      by apply (Hearlier j' raw' Hlt Hj'). }
  split; [by apply format_spec|]. split; [done|]. split; [done|]. split.
  - intros j raw Hj Hnone. split; [|by apply (Hiff j raw)].
    exists (formatted raw). split; [by rewrite list_lookup_fmap, Hj|].
    unfold formatted. by rewrite Hnone.
  - intros i j raw_i raw_j Hlt Hi Hj Hni Hnj Hid.
    pose proof (proj1 (Hiff j raw_j Hj Hnj) Hid i raw_i Hlt Hi) as Hne.
    by rewrite Hni in Hne.
Qed.

Lemma untitled_records_collapse_witness :
  ∃ recs rows,
    format_google_scholar_results
      [raw_smith; raw_untitled "http://b"; raw_untitled "http://c"] = Ok recs ∧
    (save_results "/srv/research_results" recs "a" offline).1 = Ok () ∧
    fs (save_results "/srv/research_results" recs "a" offline).2 =
      match recs with
      | [] => fs offline
      | _ :: _ =>
          <[output_file "/srv/research_results" "a" offline := header :: rows]>
            (fs offline)
      end ∧
    (∀ j raw,
       [raw_smith; raw_untitled "http://b"; raw_untitled "http://c"] !! j
         = Some raw →
       field raw "title" = None →
       (∃ rec, recs !! j = Some rec ∧ field rec "Title" = Some (JStr "N/A")) ∧
       (has_id rows (S j) ↔
        ∀ j' raw', j' < j →
          [raw_smith; raw_untitled "http://b"; raw_untitled "http://c"] !! j'
            = Some raw' →
          default (JStr "N/A") (field raw' "title") ≠ JStr "N/A")) ∧
    (∀ i j raw_i raw_j, i < j →
       [raw_smith; raw_untitled "http://b"; raw_untitled "http://c"] !! i
         = Some raw_i →
       [raw_smith; raw_untitled "http://b"; raw_untitled "http://c"] !! j
         = Some raw_j →
       field raw_i "title" = None → field raw_j "title" = None →
       ¬ has_id rows (S j)).
Proof.
  apply (untitled_records_collapse "/srv/research_results"
           [raw_smith; raw_untitled "http://b"; raw_untitled "http://c"]
           "a" offline).
  - repeat constructor.
  - intros _. reflexivity.
Defined.

(** ** The fetcher *)

Lemma fetch_spec url p w :
  fetch url p w =
    (Ok (fetch_value (net w (length (sent w)) url p)),
     printed (fetch_log url (net w (length (sent w)) url p))
             (requested [(url, p)] w)).
Proof.
  unfold fetch, bind, http_get.
  destruct (net w (length (sent w)) url p) as [status [j|e]|e];
    cbn [fetch_value fetch_log];
    try destruct (decide (status = 200%Z)); try reflexivity.
  unfold ret, printed, requested. simpl. by rewrite app_nil_r.
Qed.

(** C6: on a status other than 200 and on a transport failure [fetch]
    returns normally, with the empty mapping: the value a 200 response
    with the body [{}] gives. It writes no file; the request went out
    once. *)
Theorem fetch_soft_fails url p w :
  failed (net w (length (sent w)) url p) →
  (fetch url p w).1 = Ok (JObj []) ∧
  (∀ w2, net w2 (length (sent w2)) url p = Response 200 (Json (JObj [])) →
         (fetch url p w2).1 = (fetch url p w).1) ∧
  fs (fetch url p w).2 = fs w ∧
  sent (fetch url p w).2 = (sent w ++ [(url, p)])%list.
Proof.
  intros Hfail.
  assert ((fetch url p w).1 = Ok (JObj [])) as Hres.
  { rewrite fetch_spec. simpl.
    destruct (net w (length (sent w)) url p) as [status [j|e]|e]; simpl in *;
      try done.
    by rewrite decide_False. }
  split; [done|]. split; [|by rewrite fetch_spec].
  intros w2 H200. rewrite Hres, fetch_spec, H200. done.
Qed.

Lemma fetch_soft_fails_witness :
  (fetch search_url (search_params "k3y" "coq" 0) offline).1 = Ok (JObj []) ∧
  (∀ w2, net w2 (length (sent w2)) search_url (search_params "k3y" "coq" 0)
           = Response 200 (Json (JObj [])) →
         (fetch search_url (search_params "k3y" "coq" 0) w2).1 =
         (fetch search_url (search_params "k3y" "coq" 0) offline).1) ∧
  fs (fetch search_url (search_params "k3y" "coq" 0) offline).2 = fs offline ∧
  sent (fetch search_url (search_params "k3y" "coq" 0) offline).2 =
    (sent offline ++ [(search_url, search_params "k3y" "coq" 0)])%list.
Proof.
  apply (fetch_soft_fails search_url (search_params "k3y" "coq" 0) offline).
  exact I.
Defined.

(** ** The paginator *)

Lemma chars_length s : length (chars s) = String.length s.
Proof. induction s; simpl; congruence. Qed.

Lemma py_len_iter v l : py_iter v = Ok l → py_len v = Ok (length l).
Proof.
  destruct v; simpl; intros [= <-]; f_equal.
  - by rewrite chars_length.
  - by rewrite length_map.
Qed.

Lemma paginate_step KEY query start rest acc w items :
  (page ← py_get (fetch_value (net w (length (sent w)) search_url
                                   (search_params KEY query start)))
                 "organic_results" (JArr []) ;;;
   py_iter page) = Ok items →
  paginate KEY query (start :: rest) acc w =
    if length items <? 10
    then (Ok (acc ++ items)%list,
          printed (fetch_log search_url
                     (net w (length (sent w)) search_url
                          (search_params KEY query start)))
                  (requested [(search_url, search_params KEY query start)] w))
    else paginate KEY query rest (acc ++ items)%list
           (printed (fetch_log search_url
                       (net w (length (sent w)) search_url
                            (search_params KEY query start)))
                    (requested [(search_url, search_params KEY query start)] w)).
Proof.
  intros Hitems. cbn [paginate]. unfold bind at 1.
  change "https://serpapi.com/search" with search_url.
  rewrite fetch_spec.
  destruct (py_get (fetch_value (net w (length (sent w)) search_url
                                     (search_params KEY query start)))
                   "organic_results" (JArr [])) as [page|e] eqn:Hpage;
    [|discriminate Hitems].
  cbn [rbind] in Hitems.
  unfold bind, lift. rewrite Hitems, (py_len_iter _ _ Hitems).
  by destruct (length items <? 10).
Qed.

Lemma py_range_10 (num_results : Z) :
  py_range 0 num_results 10 =
    map (λ i : nat, (10 * Z.of_nat i)%Z)
        (seq 0 (Z.to_nat ((num_results + 9) / 10))).
Proof.
  unfold py_range.
  replace (num_results - 0 + 10 - 1)%Z with (num_results + 9)%Z by lia.
  reflexivity.
Qed.

Lemma range_count (num_results : Z) (j : nat) :
  j < Z.to_nat ((num_results + 9) / 10) ↔ (10 * Z.of_nat j < num_results)%Z.
Proof.
  pose proof (Z.div_mod (num_results + 9) 10 ltac:(lia)) as Hdiv.
  pose proof (Z.mod_pos_bound (num_results + 9) 10 ltac:(lia)) as Hmod.
  lia.
Qed.

(** The loop from page [b] on, in a world [w] that has the network of [w0]
    and has made [b] requests more than [w0]. *)
Lemma paginate_spec KEY query w0 : ∀ n b acc w,
  net w = net w0 →
  length (sent w) = length (sent w0) + b →
  (∀ j, j < n →
        (∀ j', j' < j → 10 ≤ length (page_list KEY w0 query (b + j'))) →
        ∃ items, page_items KEY w0 query (b + j) = Ok items) →
  ∃ m w',
    paginate KEY query (map (λ i : nat, (10 * Z.of_nat i)%Z) (seq b n)) acc w =
      (Ok (acc ++ concat (map (page_list KEY w0 query) (seq b m)))%list, w') ∧
    (∀ j, j < m ↔
          j < n ∧ ∀ j', j' < j → 10 ≤ length (page_list KEY w0 query (b + j'))) ∧
    net w' = net w0 ∧
    sent w' = (sent w ++ map (page_request KEY query) (seq b m))%list ∧
    fs w' = fs w ∧ ticks w' = ticks w ∧ clock w' = clock w.
Proof.
  induction n as [|n IH]; intros b acc w Hnet Hlen Hok.
  - exists 0, w. simpl. rewrite !app_nil_r. repeat split; try done; lia.
  - destruct (Hok 0 ltac:(lia) ltac:(lia)) as [items Hitems].
    rewrite Nat.add_0_r in Hitems.
    assert (page_list KEY w0 query b = items) as Hlist.
    { unfold page_list. by rewrite Hitems. }
    cbn [seq map].
    rewrite (paginate_step KEY query _ _ acc w items); cycle 1.
    { rewrite Hnet, Hlen. exact Hitems. }
    destruct (length items <? 10) eqn:Hshort.
    + apply Nat.ltb_lt in Hshort. exists 1. eexists. split; [|split].
      * simpl. by rewrite Hlist, app_nil_r.
      * intros j. split.
        -- intros Hj. split; [lia|]. intros j' Hj'. lia.
        -- intros [_ Hfull]. destruct j as [|j]; [lia|].
           specialize (Hfull 0 ltac:(lia)). rewrite Nat.add_0_r, Hlist in Hfull.
           lia.
      * done.
    + apply Nat.ltb_ge in Hshort.
      destruct (IH (S b) (acc ++ items)%list
                  (printed (fetch_log search_url
                              (net w (length (sent w)) search_url
                                   (search_params KEY query (10 * Z.of_nat b))))
                           (requested [(search_url,
                                        search_params KEY query (10 * Z.of_nat b))] w)))
        as (m & w' & Hrun & Hm & Hnet' & Hsent' & Hfs' & Hticks' & Hclock').
      * done.
      * simpl. rewrite length_app. simpl. lia.
      * intros j Hj Hfull.
        replace (S b + j) with (b + S j) by lia. apply Hok; [lia|].
        intros [|j'] Hj'.
        -- by rewrite Nat.add_0_r, Hlist.
        -- replace (b + S j') with (S b + j') by lia. apply Hfull. lia.
      * exists (S m), w'. split; [|split; [|split; [|split]]].
        -- rewrite Hrun. cbn [seq map concat]. by rewrite Hlist, <- app_assoc.
        -- intros j. destruct j as [|j].
           ++ split; [intros _|lia]. split; [lia|]. intros j' Hj'. lia.
           ++ rewrite <- Nat.succ_lt_mono, Hm, <- Nat.succ_lt_mono. split.
              ** intros [Hj Hfull]. split; [done|]. intros [|j'] Hj'.
                 --- by rewrite Nat.add_0_r, Hlist.
                 --- replace (b + S j') with (S b + j') by lia. apply Hfull. lia.
              ** intros [Hj Hfull]. split; [done|]. intros j' Hj'.
                 replace (S b + j') with (b + S j') by lia. apply Hfull. lia.
        -- done.
        -- rewrite Hsent'. simpl. by rewrite <- app_assoc.
        -- done.
Qed.

Lemma get_results_spec KEY query num_results w :
  (∀ j, (10 * Z.of_nat j < num_results)%Z →
        (∀ j', j' < j → 10 ≤ length (page_list KEY w query j')) →
        ∃ items, page_items KEY w query j = Ok items) →
  ∃ m w',
    get_google_scholar_results KEY query num_results w =
      (Ok (concat (map (page_list KEY w query) (seq 0 m))), w') ∧
    (∀ j, j < m ↔
          (10 * Z.of_nat j < num_results)%Z ∧
          ∀ j', j' < j → 10 ≤ length (page_list KEY w query j')) ∧
    net w' = net w ∧
    sent w' = (sent w ++ map (page_request KEY query) (seq 0 m))%list ∧
    fs w' = fs w ∧ ticks w' = ticks w ∧ clock w' = clock w.
Proof.
  intros Hok. unfold get_google_scholar_results. rewrite py_range_10.
  destruct (paginate_spec KEY query w (Z.to_nat ((num_results + 9) / 10)) 0 [] w)
    as (m & w' & Hrun & Hm & Hrest); [done|lia| |].
  - intros j Hj Hfull. apply Hok; [by apply range_count|done].
  - exists m, w'. split; [done|]. split; [|done].
    intros j. rewrite Hm. by rewrite range_count.
Qed.

(** C5: the paginator requests the offsets 0, 10, 20, ... in turn, and
    page [j] is requested exactly when its offset is below the requested
    total and every earlier page had at least 10 items; with a total of 50
    and pages of exactly 10 items that makes 5 requests. *)
Theorem pagination_stops KEY query num_results w :
  (∀ j, ∃ items, page_items KEY w query j = Ok items) →
  ∃ m w',
    get_google_scholar_results KEY query num_results w =
      (Ok (concat (map (page_list KEY w query) (seq 0 m))), w') ∧
    sent w' = (sent w ++ map (page_request KEY query) (seq 0 m))%list ∧
    (∀ j, start (page_request KEY query j).2 = (10 * Z.of_nat j)%Z) ∧
    (∀ j, j < m ↔
          (10 * Z.of_nat j < num_results)%Z ∧
          ∀ j', j' < j → 10 ≤ length (page_list KEY w query j')) ∧
    (num_results = 50%Z →
     (∀ j, j < 5 → length (page_list KEY w query j) = 10) → m = 5).
Proof.
  intros Hok.
  destruct (get_results_spec KEY query num_results w)
    as (m & w' & Hrun & Hm & _ & Hsent & _); [by intros j _ _|].
  exists m, w'. split; [done|]. split; [done|]. split; [done|]. split; [done|].
  intros -> Hfull.
  assert (4 < m) as H4.
  { apply Hm. split; [lia|]. intros j' Hj'. rewrite Hfull; lia. }
  assert (¬ 5 < m) as H5.
  { intros H5. apply Hm in H5 as [H5 _]. lia. }
  lia.
Qed.

Lemma pagination_stops_witness :
  ∃ m w',
    get_google_scholar_results "k3y" "coq" 50 plentiful =
      (Ok (concat (map (page_list "k3y" plentiful "coq") (seq 0 m))), w') ∧
    sent w' = (sent plentiful ++ map (page_request "k3y" "coq") (seq 0 m))%list ∧
    (∀ j, start (page_request "k3y" "coq" j).2 = (10 * Z.of_nat j)%Z) ∧
    (∀ j, j < m ↔
          (10 * Z.of_nat j < 50)%Z ∧
          ∀ j', j' < j → 10 ≤ length (page_list "k3y" plentiful "coq" j')) ∧
    (50%Z = 50%Z →
     (∀ j, j < 5 → length (page_list "k3y" plentiful "coq" j) = 10) → m = 5).
Proof.
  apply (pagination_stops "k3y" "coq" 50 plentiful).
  intros j. eexists. reflexivity.
Defined.

Example five_requests :
  map (λ r, start r.2) (sent (get_google_scholar_results "k3y" "coq" 50 plentiful).2)
  = [0; 10; 20; 30; 40]%Z.
Proof. reflexivity. Qed.

(** Pagination up to and including the first short page. *)
Lemma get_results_short_page KEY query num_results w k :
  (10 * Z.of_nat k < num_results)%Z →
  (∀ j, j < k → ∃ items, page_items KEY w query j = Ok items ∧ 10 ≤ length items) →
  (∃ items, page_items KEY w query k = Ok items ∧ length items < 10) →
  ∃ w',
    get_google_scholar_results KEY query num_results w =
      (Ok (concat (map (page_list KEY w query) (seq 0 (S k)))), w') ∧
    net w' = net w ∧
    sent w' = (sent w ++ map (page_request KEY query) (seq 0 (S k)))%list ∧
    fs w' = fs w ∧ ticks w' = ticks w ∧ clock w' = clock w.
Proof.
  intros Hk Hfull (last & Hlast & Hshort).
  assert (∀ j, j < k → 10 ≤ length (page_list KEY w query j)) as Hlen.
  { intros j Hj. destruct (Hfull j Hj) as (items & Hitems & Hge).
    unfold page_list. by rewrite Hitems. }
  assert (length (page_list KEY w query k) < 10) as Hlenk.
  { unfold page_list. by rewrite Hlast. }
  destruct (get_results_spec KEY query num_results w)
    as (m & w' & Hrun & Hm & Hrest).
  { intros j _ Hearlier. destruct (Nat.lt_trichotomy j k) as [Hj|[->|Hj]].
    - destruct (Hfull j Hj) as (items & Hitems & _). by exists items.
    - by exists last.
    - specialize (Hearlier k Hj). lia. }
  assert (m = S k) as ->; [|by exists w'].
  assert (k < m) as H1.
  { apply Hm. split; [done|]. intros j' Hj'. by apply Hlen. }
  assert (¬ S k < m) as H2.
  { intros H2. apply Hm in H2 as [_ H2]. specialize (H2 k ltac:(lia)). lia. }
  lia.
Qed.

Lemma seq_snoc_concat {A} (f : nat → list A) k :
  concat (map f (seq 0 (S k))) = (concat (map f (seq 0 k)) ++ f k)%list.
Proof.
  rewrite seq_S, map_app, concat_app. simpl. by rewrite app_nil_r.
Qed.

Lemma main_query KEY SD query stdin' w results w' recs :
  py_lower query ≠ "exit" →
  py_strip query ≠ "" →
  get_google_scholar_results KEY query 50
    (printed ["Fetching Google Scholar results..."] (printed [prompt] w))
    = (Ok results, w') →
  format_google_scholar_results results = Ok recs →
  main KEY SD (query :: stdin') w =
    (save_results SD recs query ;; main KEY SD stdin')
      (printed ["Fetched " ++ pretty (length results)
                           ++ " Google Scholar results."] w').
Proof.
  intros Hexit Hblank Hget Hfmt. unfold prompt in *. cbn [main].
  rewrite bool_decide_eq_false_2 by done.
  rewrite bool_decide_eq_false_2 by done.
  unfold bind at 1 2 3. unfold print at 1 2. rewrite Hget.
  unfold bind at 1 2. unfold print at 1. unfold lift. by rewrite Hfmt.
Qed.

Lemma page_items_empty KEY w query k :
  fetch_value (page_outcome KEY w query k) = JObj [] →
  page_items KEY w query k = Ok [].
Proof. unfold page_items. by intros ->. Qed.

Lemma page_list_agree KEY w w_alt query k :
  (∀ j, j < k → page_outcome KEY w_alt query j = page_outcome KEY w query j) →
  concat (map (page_list KEY w_alt query) (seq 0 k)) =
  concat (map (page_list KEY w query) (seq 0 k)).
Proof.
  intros Hsame. f_equal. apply map_ext_in. intros j Hj.
  apply in_seq in Hj. unfold page_list, page_items.
  rewrite Hsame by lia. done.
Qed.

(** C7: when the pages before page [k] are full and the fetch of page [k]
    yields the empty mapping, the paginator returns the items of the
    earlier pages, after exactly one request per page up to [k] and none
    after it; a provider answering page [k] with no results gives the same
    run; and the interactive loop goes on to format and write what was
    accumulated. *)
Theorem failed_page_ends_pagination KEY query num_results w k :
  (10 * Z.of_nat k < num_results)%Z →
  (∀ j, j < k → ∃ items, page_items KEY w query j = Ok items ∧ 10 ≤ length items) →
  fetch_value (page_outcome KEY w query k) = JObj [] →
  (∃ w',
     get_google_scholar_results KEY query num_results w =
       (Ok (concat (map (page_list KEY w query) (seq 0 k))), w') ∧
     sent w' = (sent w ++ map (page_request KEY query) (seq 0 (S k)))%list ∧
     fs w' = fs w) ∧
  (∀ w_alt,
     sent w_alt = sent w →
     (∀ j, j < k → page_outcome KEY w_alt query j = page_outcome KEY w query j) →
     page_outcome KEY w_alt query k =
       Response 200 (Json (JObj [("organic_results", JArr [])])) →
     ∃ w_alt',
       get_google_scholar_results KEY query num_results w_alt =
         (Ok (concat (map (page_list KEY w query) (seq 0 k))), w_alt') ∧
       sent w_alt' = (sent w ++ map (page_request KEY query) (seq 0 (S k)))%list) ∧
  (num_results = 50%Z →
   ∀ SAVE_DIRECTORY stdin' recs,
     py_lower query ≠ "exit" →
     py_strip query ≠ "" →
     format_google_scholar_results
       (concat (map (page_list KEY w query) (seq 0 k))) = Ok recs →
     ∃ w2,
       sent w2 = (sent w ++ map (page_request KEY query) (seq 0 (S k)))%list ∧
       fs w2 = fs w ∧
       main KEY SAVE_DIRECTORY (query :: stdin') w =
         (save_results SAVE_DIRECTORY recs query ;;
          main KEY SAVE_DIRECTORY stdin') w2).
Proof.
  intros Hk Hfull Hfail.
  assert (∀ v, (∀ j, j < k → ∃ items, page_items KEY v query j = Ok items
                                     ∧ 10 ≤ length items) →
               page_items KEY v query k = Ok [] →
               ∃ v', get_google_scholar_results KEY query num_results v =
                       (Ok (concat (map (page_list KEY v query) (seq 0 k))), v') ∧
                     sent v' = (sent v ++ map (page_request KEY query)
                                              (seq 0 (S k)))%list ∧
                     fs v' = fs v) as Hrun.
  { intros v Hv Hlast.
    destruct (get_results_short_page KEY query num_results v k Hk Hv)
      as (v' & Hget & _ & Hsent & Hfs & _).
    { exists []. split; [done|simpl; lia]. }
    exists v'. split; [|done].
    rewrite Hget, seq_snoc_concat. unfold page_list at 2.
    by rewrite Hlast, app_nil_r. }
  split; [|split].
  - apply Hrun; [done|]. by apply page_items_empty.
  - intros w_alt Hsent Hsame Hempty.
    destruct (Hrun w_alt) as (v' & Hget & Hsent' & _).
    + intros j Hj. unfold page_items. rewrite Hsame by done. by apply Hfull.
    + unfold page_items. by rewrite Hempty.
    + exists v'. by rewrite Hget, Hsent', Hsent, (page_list_agree KEY w w_alt).
  - intros -> SAVE_DIRECTORY stdin' recs Hexit Hblank Hfmt.
    destruct (Hrun (printed ["Fetching Google Scholar results..."]
                            (printed [prompt] w)))
      as (v' & Hget & Hsent & Hfs).
    + exact Hfull.
    + by apply page_items_empty.
    + eexists. split; [|split; [|by apply (main_query _ _ _ _ _ _ _ _ Hexit Hblank Hget)]].
      * exact Hsent.
      * exact Hfs.
Qed.

Lemma failed_page_ends_pagination_witness :
  (∃ w',
     get_google_scholar_results "k3y" "coq" 50 flaky =
       (Ok (concat (map (page_list "k3y" flaky "coq") (seq 0 2))), w') ∧
     sent w' = (sent flaky ++ map (page_request "k3y" "coq") (seq 0 3))%list ∧
     fs w' = fs flaky) ∧
  (∀ w_alt,
     sent w_alt = sent flaky →
     (∀ j, j < 2 → page_outcome "k3y" w_alt "coq" j = page_outcome "k3y" flaky "coq" j) →
     page_outcome "k3y" w_alt "coq" 2 =
       Response 200 (Json (JObj [("organic_results", JArr [])])) →
     ∃ w_alt',
       get_google_scholar_results "k3y" "coq" 50 w_alt =
         (Ok (concat (map (page_list "k3y" flaky "coq") (seq 0 2))), w_alt') ∧
       sent w_alt' = (sent flaky ++ map (page_request "k3y" "coq") (seq 0 3))%list) ∧
  (50%Z = 50%Z →
   ∀ SAVE_DIRECTORY stdin' recs,
     py_lower "coq" ≠ "exit" →
     py_strip "coq" ≠ "" →
     format_google_scholar_results
       (concat (map (page_list "k3y" flaky "coq") (seq 0 2))) = Ok recs →
     ∃ w2,
       sent w2 = (sent flaky ++ map (page_request "k3y" "coq") (seq 0 3))%list ∧
       fs w2 = fs flaky ∧
       main "k3y" SAVE_DIRECTORY ("coq" :: stdin') flaky =
         (save_results SAVE_DIRECTORY recs "coq" ;;
          main "k3y" SAVE_DIRECTORY stdin') w2).
Proof.
  apply (failed_page_ends_pagination "k3y" "coq" 50 flaky 2).
  - simpl. lia.
  - intros [|[|j]] Hj; [| |lia]; eexists; (split; [reflexivity|simpl; lia]).
  - reflexivity.
Defined.

Example flaky_run :
  (main "k3y" "/srv/research_results" ["coq"; "exit"] flaky).1 = Ok () ∧
  map (λ r, start r.2)
      (sent (main "k3y" "/srv/research_results" ["coq"; "exit"] flaky).2)
    = [0; 10; 20]%Z ∧
  fs (main "k3y" "/srv/research_results" ["coq"; "exit"] flaky).2
    !! "/srv/research_results/research_results_coq_2024-05-17_09-30-00.csv"
    = Some [header; row_of 1 (formatted raw_bare)].
Proof. vm_compute. repeat split. Qed.

(** ** The interactive loop *)

Lemma space_not_e c : is_space c = true → lower_char c ≠ "e"%char.
Proof.
  destruct c as [[] [] [] [] [] [] [] []]; vm_compute; intros Hs Hl;
    discriminate Hs || discriminate Hl.
Qed.

Lemma blank_not_exit query : py_strip query = "" → py_lower query ≠ "exit".
Proof.
  destruct query as [|c rest]; [done|].
  intros Hblank Hexit. simpl in Hexit. injection Hexit as Hc _.
  unfold py_strip in Hblank. simpl in Hblank.
  destruct (is_space c) eqn:Hs.
  - by apply (space_not_e c).
  - simpl in Hblank. destruct (py_rstrip rest); [by rewrite Hs in Hblank|done].
Qed.

(** C9: an empty or whitespace-only line is never the exit keyword, and on
    such a line the loop prints the complaint and is back at the prompt for
    the next line: no request was sent, no file written and the clock was
    not read. *)
Theorem blank_input_reprompts KEY SAVE_DIRECTORY query stdin' w :
  py_strip query = "" →
  py_lower query ≠ "exit" ∧
  ∃ w',
    main KEY SAVE_DIRECTORY (query :: stdin') w = main KEY SAVE_DIRECTORY stdin' w' ∧
    sent w' = sent w ∧
    fs w' = fs w ∧
    ticks w' = ticks w ∧
    stdout w' =
      (stdout w ++ [prompt; "Query is empty. Please enter a valid search keyword."])%list.
Proof.
  intros Hblank. pose proof (blank_not_exit query Hblank) as Hexit.
  split; [done|].
  exists (printed ["Query is empty. Please enter a valid search keyword."]
                  (printed [prompt] w)).
  split; [|split; [done|split; [done|split; [done|]]]].
  - cbn [main]. rewrite bool_decide_eq_false_2 by done.
    rewrite bool_decide_eq_true_2 by done. reflexivity.
  - simpl. by rewrite <- app_assoc.
Qed.

Lemma blank_input_reprompts_witness :
  py_strip "  " = "" ∧
  py_lower "  " ≠ "exit" ∧
  ∃ w',
    main "k3y" "/srv/research_results" ["  "; "exit"] plentiful =
      main "k3y" "/srv/research_results" ["exit"] w' ∧
    sent w' = sent plentiful ∧
    fs w' = fs plentiful ∧
    ticks w' = ticks plentiful ∧
    stdout w' =
      (stdout plentiful ++
       [prompt; "Query is empty. Please enter a valid search keyword."])%list.
Proof.
  split; [reflexivity|].
  apply (blank_input_reprompts "k3y" "/srv/research_results" "  " ["exit"] plentiful).
  reflexivity.
Defined.

(** * Further properties of the code *)

(** ** Module initialisation *)

(** Loading fails with [ValueError] exactly when the key is unset or
    empty, and then nothing was created. *)
Theorem startup_needs_key h :
  (environ h !! "SERPAPI_KEY" = None ∨ environ h !! "SERPAPI_KEY" = Some "") ↔
  startup h = (inl ValueError, h).
Proof.
  unfold startup, makedirs_exist_ok. split.
  - intros [->| ->]; reflexivity.
  - destruct (environ h !! "SERPAPI_KEY") as [key|]; [|by left].
    destruct (bool_decide (key = "")) eqn:Hkey.
    + apply bool_decide_eq_true in Hkey as ->. by right.
    + repeat case_decide; discriminate.
Qed.

(** A successful load returns a key that is not empty and the directory
    [research_results] of the working directory, which exists from then on;
    the other directories and the files are as before, and loading again
    changes nothing. *)
Theorem startup_creates_directory h key dir h' :
  startup h = (inr (key, dir), h') →
  key ≠ "" ∧
  environ h !! "SERPAPI_KEY" = Some key ∧
  dir = path_join (cwd h) "research_results" ∧
  directories h' = {[dir]} ∪ directories h ∧
  regular_files h' = regular_files h ∧
  startup h' = (inr (key, dir), h').
Proof.
  intros Hrun.
  assert (∀ g, startup g =
            match environ g !! "SERPAPI_KEY" with
            | None => (inl ValueError, g)
            | Some k =>
                if bool_decide (k = "") then (inl ValueError, g)
                else match makedirs_exist_ok
                             (path_join (cwd g) "research_results") g with
                     | (inl e, g') => (inl e, g')
                     | (inr _, g') =>
                         (inr (k, path_join (cwd g) "research_results"), g')
                     end
            end) as Hunfold by done.
  rewrite Hunfold in Hrun.
  destruct (environ h !! "SERPAPI_KEY") as [k|] eqn:Henv; [|discriminate].
  destruct (bool_decide (k = "")) eqn:Hkey; [discriminate|].
  apply bool_decide_eq_false in Hkey.
  remember (path_join (cwd h) "research_results") as d eqn:Hd.
  unfold makedirs_exist_ok in Hrun.
  destruct (decide (d ∈ directories h)) as [Hin|Hnin].
  - assert (k = key ∧ d = dir ∧ h = h') as (<- & <- & <-).
    { by injection Hrun as -> -> ->. }
    split; [done|]. split; [done|]. split; [done|]. split; [|split; [done|]].
    + apply set_eq. intros x. rewrite elem_of_union, elem_of_singleton.
      naive_solver.
    + rewrite Hunfold, Henv, bool_decide_eq_false_2, <- Hd by done.
      unfold makedirs_exist_ok. by rewrite decide_True.
  - destruct (decide (d ∈ regular_files h)); [discriminate|].
    assert (k = key ∧ d = dir ∧
            {| environ := environ h; cwd := cwd h;
               directories := {[d]} ∪ directories h;
               regular_files := regular_files h |} = h') as (<- & <- & <-).
    { by injection Hrun as -> -> ->. }
    split; [done|]. split; [done|]. split; [done|]. split; [done|].
    split; [done|].
    rewrite Hunfold. cbn [environ cwd]. rewrite Henv, bool_decide_eq_false_2, <- Hd by done.
    unfold makedirs_exist_ok. cbn [directories]. rewrite decide_True; [done|].
    apply elem_of_union_l, elem_of_singleton. done.
Qed.

Lemma startup_creates_directory_witness :
  "k3y" ≠ "" ∧
  environ laptop !! "SERPAPI_KEY" = Some "k3y" ∧
  "/home/ada/papers/research_results" = path_join (cwd laptop) "research_results" ∧
  directories (startup laptop).2 =
    {["/home/ada/papers/research_results"]} ∪ directories laptop ∧
  regular_files (startup laptop).2 = regular_files laptop ∧
  startup (startup laptop).2 =
    (inr ("k3y", "/home/ada/papers/research_results"), (startup laptop).2).
Proof.
  apply (startup_creates_directory laptop "k3y"
           "/home/ada/papers/research_results" (startup laptop).2).
  vm_compute. reflexivity.
Defined.

(** ** The fetcher, whatever the outcome *)

(** [fetch] never raises and sends exactly one request. It returns the
    decoded body, printing nothing, exactly when the status is 200 and the
    body decodes; in every other case, a 200 response with an undecodable
    body included, it returns the empty mapping and prints one line. It
    never touches the file system or the clock. *)
Theorem fetch_never_raises url p w :
  sent (fetch url p w).2 = (sent w ++ [(url, p)])%list ∧
  fs (fetch url p w).2 = fs w ∧
  ticks (fetch url p w).2 = ticks w ∧
  ((∃ j, net w (length (sent w)) url p = Response 200 (Json j) ∧
         (fetch url p w).1 = Ok j ∧
         stdout (fetch url p w).2 = stdout w) ∨
   ((∀ j, net w (length (sent w)) url p ≠ Response 200 (Json j)) ∧
    (fetch url p w).1 = Ok (JObj []) ∧
    ∃ line, stdout (fetch url p w).2 = (stdout w ++ [line])%list)).
Proof.
  rewrite fetch_spec. cbn [fst snd]. split; [done|]. split; [done|].
  split; [done|].
  destruct (net w (length (sent w)) url p) as [status [j|e]|e];
    cbn [fetch_value fetch_log].
  - destruct (decide (status = 200%Z)) as [->|Hne].
    + left. exists j. split; [done|]. split; [done|]. simpl. by rewrite app_nil_r.
    + right. split; [by intros j' [= ? _]|]. split; [done|]. by eexists.
  - right. split; [done|]. split; [done|].
    destruct (decide (status = 200%Z)); by eexists.
  - right. split; [done|]. split; [done|]. by eexists.
Qed.

(** ** The paginator, whatever the pages *)

(** The loop from page [b] on, whatever the pages. *)
Lemma paginate_trace KEY query : ∀ n b acc w,
  ∃ m r w',
    paginate KEY query (map (λ i : nat, (10 * Z.of_nat i)%Z) (seq b n)) acc w
      = (r, w') ∧
    m ≤ n ∧
    sent w' = (sent w ++ map (page_request KEY query) (seq b m))%list ∧
    fs w' = fs w ∧
    ticks w' = ticks w.
Proof.
  induction n as [|n IH]; intros b acc w.
  - exists 0, (Ok acc), w. simpl. by rewrite app_nil_r.
  - cbn [seq map paginate]. unfold bind at 1.
    change "https://serpapi.com/search" with search_url.
    rewrite fetch_spec.
    set (w1 := printed _ (requested _ w)).
    set (data := fetch_value _).
    assert (sent w1 = (sent w ++ map (page_request KEY query) (seq b 1))%list
            ∧ fs w1 = fs w ∧ ticks w1 = ticks w) as Hone by done.
    unfold bind, lift.
    destruct (py_get data "organic_results" (JArr [])) as [page|e];
      [|by exists 1, (Raise e), w1; split; [|split; [lia|]]].
    destruct (py_iter page) as [items|e];
      [|by exists 1, (Raise e), w1; split; [|split; [lia|]]].
    destruct (py_len page) as [len|e];
      [|by exists 1, (Raise e), w1; split; [|split; [lia|]]].
    destruct (len <? 10);
      [by exists 1, (Ok (acc ++ items)%list), w1; split; [|split; [lia|]]|].
    destruct (IH (S b) (acc ++ items)%list w1)
      as (m & r & w' & Hrun & Hm & Hsent & Hfs & Hticks).
    exists (S m), r, w'. split; [done|]. split; [lia|].
    rewrite Hsent, Hfs, Hticks.
    destruct Hone as (-> & -> & ->). split; [|done].
    simpl. by rewrite <- app_assoc.
Qed.

(** Whatever the provider answers, and whether the paginator returns or
    raises, the requests of one query are those of the pages 0, 1, ..., m-1
    for some m not above the number of offsets below the total, each to the
    search endpoint with the engine, the query, the key, a page size of 10
    and the offset of its page; the file system and the clock are
    untouched. *)
Theorem get_results_requests KEY query num_results w :
  ∃ m,
    m ≤ page_count num_results ∧
    sent (get_google_scholar_results KEY query num_results w).2 =
      (sent w ++ map (page_request KEY query) (seq 0 m))%list ∧
    Forall (λ r, r.1 = "https://serpapi.com/search" ∧
                 engine r.2 = "google_scholar" ∧ q r.2 = query ∧
                 api_key r.2 = KEY ∧ num r.2 = 10 ∧
                 ∃ j : nat, j < m ∧ start r.2 = (10 * Z.of_nat j)%Z)
           (map (page_request KEY query) (seq 0 m)) ∧
    fs (get_google_scholar_results KEY query num_results w).2 = fs w ∧
    ticks (get_google_scholar_results KEY query num_results w).2 = ticks w.
Proof.
  unfold get_google_scholar_results. rewrite py_range_10.
  destruct (paginate_trace KEY query (page_count num_results) 0 [] w)
    as (m & r & w' & Hrun & Hm & Hsent & Hfs & Hticks).
  fold (page_count num_results). rewrite Hrun.
  exists m. split; [done|]. split; [done|]. split; [|done].
  apply Forall_fmap, Forall_forall. intros j Hj.
  apply elem_of_seq in Hj. simpl. repeat split. exists j. split; [lia|done].
Qed.

(** A total that is zero or negative sends no request at all: the result
    is the empty list and the world is as it was. *)
Theorem get_results_nonpositive KEY query num_results w :
  (num_results ≤ 0)%Z →
  get_google_scholar_results KEY query num_results w = (Ok [], w).
Proof.
  intros Hle. unfold get_google_scholar_results. rewrite py_range_10.
  replace (Z.to_nat ((num_results + 9) / 10)) with 0; [done|].
  pose proof (Z.div_mod (num_results + 9) 10 ltac:(lia)).
  pose proof (Z.mod_pos_bound (num_results + 9) 10 ltac:(lia)). lia.
Qed.

Lemma get_results_nonpositive_witness :
  get_google_scholar_results "k3y" "coq" (-5) plentiful = (Ok [], plentiful).
Proof. apply get_results_nonpositive. lia. Defined.

Lemma concat_pages_length {A} (f : nat → list A) c m :
  (∀ j, j < m → length (f j) = c) →
  length (concat (map f (seq 0 m))) = c * m.
Proof.
  induction m as [|m IH]; intros Hc; [simpl; lia|].
  rewrite seq_snoc_concat, length_app, IH by (intros; apply Hc; lia).
  rewrite Hc by lia. lia.
Qed.

(** The result is never cut down to the requested total: when every page
    holds exactly 10 items, all pages below the total are requested and the
    result has 10 items for each, which is more than the total whenever the
    total is positive and not a multiple of 10. *)
Theorem get_results_not_truncated KEY query num_results w :
  (∀ j, ∃ items, page_items KEY w query j = Ok items ∧ length items = 10) →
  ∃ results w',
    get_google_scholar_results KEY query num_results w = (Ok results, w') ∧
    length results = 10 * page_count num_results ∧
    sent w' = (sent w ++ map (page_request KEY query)
                             (seq 0 (page_count num_results)))%list ∧
    ((0 < num_results)%Z → (num_results mod 10 ≠ 0)%Z →
     (num_results < Z.of_nat (length results))%Z).
Proof.
  intros Hfull.
  assert (∀ j, length (page_list KEY w query j) = 10) as Hlen.
  { intros j. destruct (Hfull j) as (items & Hitems & Hten).
    unfold page_list. by rewrite Hitems. }
  destruct (get_results_spec KEY query num_results w)
    as (m & w' & Hrun & Hm & _ & Hsent & _).
  { intros j _ _. destruct (Hfull j) as (items & Hitems & _). by exists items. }
  assert (m = page_count num_results) as Hcount.
  { unfold page_count.
    destruct (Nat.lt_trichotomy m (Z.to_nat ((num_results + 9) / 10)))
      as [Hlt|[Heq|Hgt]]; [|done|].
    - assert (m < m); [|lia]. apply Hm. split; [by apply range_count|].
      intros j' _. rewrite Hlen. lia.
    - assert (Z.to_nat ((num_results + 9) / 10) < m) as Hin by lia.
      apply Hm in Hin as [Hin _]. apply range_count in Hin. lia. }
  subst m. eexists _, w'. split; [exact Hrun|].
  rewrite (concat_pages_length _ 10) by (intros; apply Hlen).
  split; [done|]. split; [done|].
  intros Hpos Hmod. unfold page_count.
  pose proof (Z.div_mod (num_results + 9) 10 ltac:(lia)).
  pose proof (Z.mod_pos_bound (num_results + 9) 10 ltac:(lia)).
  pose proof (Z.div_mod num_results 10 ltac:(lia)).
  pose proof (Z.mod_pos_bound num_results 10 ltac:(lia)).
  lia.
Qed.

Lemma get_results_not_truncated_witness :
  ∃ results w',
    get_google_scholar_results "k3y" "coq" 25 plentiful = (Ok results, w') ∧
    length results = 10 * page_count 25 ∧
    sent w' = (sent plentiful ++ map (page_request "k3y" "coq")
                                     (seq 0 (page_count 25)))%list ∧
    ((0 < 25)%Z → (25 mod 10 ≠ 0)%Z → (25 < Z.of_nat (length results))%Z).
Proof.
  apply (get_results_not_truncated "k3y" "coq" 25 plentiful).
  intros j. eexists. split; reflexivity.
Defined.

Lemma paginate_step_raise KEY query start rest acc w e :
  (page ← py_get (fetch_value (net w (length (sent w)) search_url
                                   (search_params KEY query start)))
                 "organic_results" (JArr []) ;;;
   py_iter page) = Raise e →
  paginate KEY query (start :: rest) acc w =
    (Raise e,
     printed (fetch_log search_url
                (net w (length (sent w)) search_url
                     (search_params KEY query start)))
             (requested [(search_url, search_params KEY query start)] w)).
Proof.
  intros Hitems. cbn [paginate]. unfold bind at 1.
  change "https://serpapi.com/search" with search_url.
  rewrite fetch_spec. unfold bind, lift.
  destruct (py_get (fetch_value (net w (length (sent w)) search_url
                                     (search_params KEY query start)))
                   "organic_results" (JArr [])) as [page|e'] eqn:Hpage.
  - cbn [rbind] in Hitems. by rewrite Hitems.
  - cbn [rbind] in Hitems. by injection Hitems as ->.
Qed.

Lemma paginate_raises KEY query w0 e : ∀ k n b acc w,
  net w = net w0 →
  length (sent w) = length (sent w0) + b →
  k < n →
  (∀ j, j < k → ∃ items, page_items KEY w0 query (b + j) = Ok items
                         ∧ 10 ≤ length items) →
  page_items KEY w0 query (b + k) = Raise e →
  ∃ w',
    paginate KEY query (map (λ i : nat, (10 * Z.of_nat i)%Z) (seq b n)) acc w =
      (Raise e, w') ∧
    sent w' = (sent w ++ map (page_request KEY query) (seq b (S k)))%list ∧
    fs w' = fs w ∧ ticks w' = ticks w.
Proof.
  induction k as [|k IH]; intros n b acc w Hnet Hlen Hk Hfull Hraise;
    (destruct n as [|n]; [lia|]); cbn [seq map].
  - rewrite Nat.add_0_r in Hraise.
    rewrite (paginate_step_raise KEY query _ _ acc w e); cycle 1.
    { rewrite Hnet, Hlen. exact Hraise. }
    eexists. split; [done|]. done.
  - destruct (Hfull 0 ltac:(lia)) as (items & Hitems & Hten).
    rewrite Nat.add_0_r in Hitems.
    rewrite (paginate_step KEY query _ _ acc w items); cycle 1.
    { rewrite Hnet, Hlen. exact Hitems. }
    rewrite (proj2 (Nat.ltb_ge _ _) Hten).
    edestruct (IH n (S b) (acc ++ items)%list) as (w' & Hrun & Hsent & Hfs & Hticks);
      cycle 5.
    + exists w'. split; [exact Hrun|]. rewrite Hsent, Hfs, Hticks.
      split; [|done]. simpl. by rewrite <- app_assoc.
    + done.
    + simpl. rewrite length_app. simpl. lia.
    + lia.
    + intros j Hj. replace (S b + j) with (b + S j) by lia. apply Hfull. lia.
    + replace (S b + k) with (b + S k) by lia. done.
Qed.

Lemma main_query_raises KEY SD query stdin' w e w' :
  py_lower query ≠ "exit" →
  py_strip query ≠ "" →
  get_google_scholar_results KEY query 50
    (printed ["Fetching Google Scholar results..."] (printed [prompt] w))
    = (Raise e, w') →
  main KEY SD (query :: stdin') w = (Raise e, w').
Proof.
  intros Hexit Hblank Hget. unfold prompt in *. cbn [main].
  rewrite bool_decide_eq_false_2 by done.
  rewrite bool_decide_eq_false_2 by done.
  unfold bind at 1 2 3. unfold print at 1 2. by rewrite Hget.
Qed.

(** A page that cannot be read is not soft-failed: when the body of page
    [k] is not an object, or its [organic_results] cannot be iterated, the
    exception leaves the paginator after the request for page [k], the
    items of the earlier pages are lost, and the interactive loop ends
    with that exception, without a file and without reading further
    lines. *)
Theorem unreadable_page_aborts KEY query num_results w k e :
  (10 * Z.of_nat k < num_results)%Z →
  (∀ j, j < k → ∃ items, page_items KEY w query j = Ok items ∧ 10 ≤ length items) →
  page_items KEY w query k = Raise e →
  (∃ w',
     get_google_scholar_results KEY query num_results w = (Raise e, w') ∧
     sent w' = (sent w ++ map (page_request KEY query) (seq 0 (S k)))%list ∧
     fs w' = fs w) ∧
  (num_results = 50%Z →
   ∀ SAVE_DIRECTORY stdin',
     py_lower query ≠ "exit" →
     py_strip query ≠ "" →
     ∃ w2,
       main KEY SAVE_DIRECTORY (query :: stdin') w = (Raise e, w2) ∧
       sent w2 = (sent w ++ map (page_request KEY query) (seq 0 (S k)))%list ∧
       fs w2 = fs w).
Proof.
  intros Hk Hfull Hraise.
  assert (∀ v, net v = net w → sent v = sent w →
               ∃ v', get_google_scholar_results KEY query num_results v =
                       (Raise e, v') ∧
                     sent v' = (sent v ++ map (page_request KEY query)
                                              (seq 0 (S k)))%list ∧
                     fs v' = fs v) as Hrun.
  { intros v Hnet Hsent. unfold get_google_scholar_results. rewrite py_range_10.
    destruct (paginate_raises KEY query w e k
                (Z.to_nat ((num_results + 9) / 10)) 0 [] v)
      as (v' & Hget & Hsent' & Hfs & _); try done.
    - rewrite Hsent. lia.
    - by apply range_count.
    - by exists v'. }
  split.
  - by apply Hrun.
  - intros -> SAVE_DIRECTORY stdin' Hexit Hblank.
    destruct (Hrun (printed ["Fetching Google Scholar results..."]
                            (printed [prompt] w)))
      as (v' & Hget & Hsent & Hfs); [done..|].
    exists v'. split; [|done]. by apply main_query_raises.
Qed.

Lemma unreadable_page_aborts_witness :
  (∃ w',
     get_google_scholar_results "k3y" "coq" 50 broken = (Raise TypeError, w') ∧
     sent w' = (sent broken ++ map (page_request "k3y" "coq") (seq 0 2))%list ∧
     fs w' = fs broken) ∧
  (50%Z = 50%Z →
   ∀ SAVE_DIRECTORY stdin',
     py_lower "coq" ≠ "exit" →
     py_strip "coq" ≠ "" →
     ∃ w2,
       main "k3y" SAVE_DIRECTORY ("coq" :: stdin') broken = (Raise TypeError, w2) ∧
       sent w2 = (sent broken ++ map (page_request "k3y" "coq") (seq 0 2))%list ∧
       fs w2 = fs broken).
Proof.
  apply (unreadable_page_aborts "k3y" "coq" 50 broken 1 TypeError).
  - simpl. lia.
  - intros [|j] Hj; [|lia]. eexists. split; [reflexivity|simpl; lia].
  - reflexivity.
Defined.

(** ** The interactive loop, continued *)

Lemma lower_char_letter (c l u : ascii) :
  lower_char l = l → lower_char u = l →
  (∀ c', lower_char c' = l → c' = l ∨ c' = u) →
  lower_char c = l ↔ c = l ∨ c = u.
Proof. intros Hl Hu Honly. split; [apply Honly|by intros [->| ->]]. Qed.

Lemma lower_char_e c : lower_char c = "e"%char ↔ (c = "e" ∨ c = "E")%char.
Proof.
  apply lower_char_letter; try reflexivity.
  intros [[] [] [] [] [] [] [] []]; vm_compute; intros H;
    try discriminate H; auto.
Qed.

Lemma lower_char_x c : lower_char c = "x"%char ↔ (c = "x" ∨ c = "X")%char.
Proof.
  apply lower_char_letter; try reflexivity.
  intros [[] [] [] [] [] [] [] []]; vm_compute; intros H;
    try discriminate H; auto.
Qed.

Lemma lower_char_i c : lower_char c = "i"%char ↔ (c = "i" ∨ c = "I")%char.
Proof.
  apply lower_char_letter; try reflexivity.
  intros [[] [] [] [] [] [] [] []]; vm_compute; intros H;
    try discriminate H; auto.
Qed.

Lemma lower_char_t c : lower_char c = "t"%char ↔ (c = "t" ∨ c = "T")%char.
Proof.
  apply lower_char_letter; try reflexivity.
  intros [[] [] [] [] [] [] [] []]; vm_compute; intros H;
    try discriminate H; auto.
Qed.

Lemma py_lower_exit query : py_lower query = "exit" ↔ exit_spelling query.
Proof.
  split.
  - destruct query as [|c1 [|c2 [|c3 [|c4 [|c5 rest]]]]]; try discriminate.
    simpl. intros [= H1 H2 H3 H4]. exists c1, c2, c3, c4.
    split; [done|]. by rewrite <- lower_char_e, <- lower_char_x,
                               <- lower_char_i, <- lower_char_t.
  - intros (c1 & c2 & c3 & c4 & -> & H1 & H2 & H3 & H4). simpl.
    apply lower_char_e in H1. apply lower_char_x in H2.
    apply lower_char_i in H3. apply lower_char_t in H4. congruence.
Qed.

(** A line that spells exit in any mix of cases, with nothing before or
    after it, ends the loop: it returns normally, having printed the
    farewell, without a request, without a file and without looking at the
    lines that follow. *)
Theorem exit_ends_the_loop KEY SAVE_DIRECTORY query stdin' w :
  exit_spelling query →
  main KEY SAVE_DIRECTORY (query :: stdin') w =
    (Ok (), printed ["Exiting script."] (printed [prompt] w)).
Proof.
  intros Hexit. apply py_lower_exit in Hexit.
  cbn [main]. by rewrite bool_decide_eq_true_2.
Qed.

Lemma exit_ends_the_loop_witness :
  main "k3y" "/srv/research_results" ["ExIt"; "coq"] plentiful =
    (Ok (), printed ["Exiting script."] (printed [prompt] plentiful)).
Proof.
  apply (exit_ends_the_loop "k3y" "/srv/research_results" "ExIt" ["coq"] plentiful).
  exists "E"%char, "x"%char, "I"%char, "t"%char. repeat split; auto.
Defined.

Lemma main_ok_exit KEY SD : ∀ stdin w,
  (main KEY SD stdin w).1 = Ok () → Exists exit_spelling stdin.
Proof.
  induction stdin as [|query stdin' IH]; intros w; [discriminate|].
  cbn [main].
  destruct (bool_decide (py_lower query = "exit")) eqn:Hexit.
  { intros _. left. apply bool_decide_eq_true_1 in Hexit. by apply py_lower_exit. }
  destruct (bool_decide (py_strip query = "")).
  { unfold bind, print. intros Hok. right. by apply IH in Hok. }
  unfold bind at 1 2 3. unfold print at 1 2.
  destruct (get_google_scholar_results KEY query 50 _) as [[results|e] w1];
    [|discriminate].
  unfold bind at 1 2. unfold print at 1. unfold lift.
  destruct (format_google_scholar_results results) as [recs|e]; [|discriminate].
  unfold bind.
  destruct (save_results SD recs query _) as [[[]|e] w2]; [|discriminate].
  intros Hok. right. by apply IH in Hok.
Qed.

Lemma main_blank_lines KEY SD : ∀ stdin w,
  Forall (λ query, py_strip query = "") stdin →
  (main KEY SD stdin w).1 = Raise EOFError ∧
  sent (main KEY SD stdin w).2 = sent w ∧
  fs (main KEY SD stdin w).2 = fs w.
Proof.
  induction stdin as [|query stdin' IH]; intros w Hblank; [done|].
  apply Forall_cons in Hblank as [Hq Hblank].
  cbn [main]. rewrite bool_decide_eq_false_2 by by apply blank_not_exit.
  rewrite bool_decide_eq_true_2 by done.
  unfold bind, print.
  destruct (IH (printed ["Query is empty. Please enter a valid search keyword."]
                        (printed ["Enter search keyword (or type 'exit' to quit): "] w))
               Hblank) as (Hr & Hsent & Hfs).
  by rewrite Hr, Hsent, Hfs.
Qed.

(** The loop returns normally only through the exit keyword: if [main]
    returns, some line it was given spells exit. When the input ends
    before that, [input] raises [EOFError]; on blank lines only this
    happens without a single request and without a file. *)
Theorem loop_returns_only_on_exit KEY SAVE_DIRECTORY stdin w :
  ((main KEY SAVE_DIRECTORY stdin w).1 = Ok () → Exists exit_spelling stdin) ∧
  (Forall (λ query, ¬ exit_spelling query) stdin →
   ∃ e, (main KEY SAVE_DIRECTORY stdin w).1 = Raise e) ∧
  (Forall (λ query, py_strip query = "") stdin →
   (main KEY SAVE_DIRECTORY stdin w).1 = Raise EOFError ∧
   sent (main KEY SAVE_DIRECTORY stdin w).2 = sent w ∧
   fs (main KEY SAVE_DIRECTORY stdin w).2 = fs w).
Proof.
  split; [apply main_ok_exit|]. split; [|apply main_blank_lines].
  intros Hnone.
  destruct (main KEY SAVE_DIRECTORY stdin w).1 as [[]|e] eqn:Hrun; [|by exists e].
  apply main_ok_exit in Hrun. apply Exists_exists in Hrun as (query & Hin & Hexit).
  rewrite Forall_forall in Hnone. by destruct (Hnone query Hin).
Qed.

(** A query whose first page holds no item, be it because the fetch
    failed or because the provider has nothing: after one request the loop
    reports zero results, writes no file, does not read the clock, and is
    back at the prompt. *)
Theorem query_without_results KEY SAVE_DIRECTORY query stdin' w :
  py_lower query ≠ "exit" →
  py_strip query ≠ "" →
  page_items KEY w query 0 = Ok [] →
  ∃ w2,
    main KEY SAVE_DIRECTORY (query :: stdin') w = main KEY SAVE_DIRECTORY stdin' w2 ∧
    fs w2 = fs w ∧
    ticks w2 = ticks w ∧
    sent w2 = (sent w ++ [page_request KEY query 0])%list ∧
    stdout w2 =
      (((((stdout w ++ [prompt]) ++ ["Fetching Google Scholar results..."])
         ++ fetch_log search_url (page_outcome KEY w query 0))
        ++ ["Fetched 0 Google Scholar results."])
       ++ ["No results found. Skipping file save."])%list.
Proof.
  intros Hexit Hblank Hempty.
  unfold page_items, page_outcome in *. rewrite Nat.add_0_r in *.
  set (w1 := printed ["Fetching Google Scholar results..."] (printed [prompt] w)).
  assert (get_google_scholar_results KEY query 50 w1 =
            (Ok [], printed (fetch_log search_url
                               (net w (length (sent w)) search_url
                                    (search_params KEY query 0)))
                            (requested [page_request KEY query 0] w1))) as Hget.
  { unfold get_google_scholar_results.
    change (py_range 0 50 10) with [0; 10; 20; 30; 40]%Z.
    rewrite (paginate_step KEY query _ _ [] w1 []); [reflexivity|exact Hempty]. }
  eexists. split.
  - rewrite (main_query KEY SAVE_DIRECTORY query stdin' w [] _ [] Hexit Hblank Hget)
      by done.
    reflexivity.
  - done.
Qed.

Lemma query_without_results_witness :
  ∃ w2,
    main "k3y" "/srv/research_results" ["coq"; "exit"] offline =
      main "k3y" "/srv/research_results" ["exit"] w2 ∧
    fs w2 = fs offline ∧
    ticks w2 = ticks offline ∧
    sent w2 = (sent offline ++ [page_request "k3y" "coq" 0])%list ∧
    stdout w2 =
      (((((stdout offline ++ [prompt]) ++ ["Fetching Google Scholar results..."])
         ++ fetch_log search_url (page_outcome "k3y" offline "coq" 0))
        ++ ["Fetched 0 Google Scholar results."])
       ++ ["No results found. Skipping file save."])%list.
Proof.
  apply (query_without_results "k3y" "/srv/research_results" "coq" ["exit"] offline).
  - discriminate.
  - discriminate.
  - reflexivity.
Defined.

(** ** The writer, continued *)

Lemma save_results_run SD results query w :
  results ≠ [] →
  save_results SD results query w =
    match os_open w (output_file SD query w) with
    | Raise e => (Raise e, clock_read w)
    | Ok _ =>
        match (write_rows 1 ∅ results).2 with
        | Ok _ =>
            (Ok (),
             printed ["Results saved to " ++ output_file SD query w]
                     (saved (output_file SD query w)
                            (header :: (write_rows 1 ∅ results).1) w))
        | Raise e =>
            (Raise e,
             saved (output_file SD query w)
                   (header :: (write_rows 1 ∅ results).1) w)
        end
    end.
Proof.
  intros Hne. destruct results as [|item rest]; [done|].
  unfold save_results. destruct (write_rows 1 ∅ (item :: rest)) as [rows r].
  unfold bind, now_strftime, write_file, lift, print, output_file.
  cbn [os_open fst snd].
  destruct (os_open w _) as [[]|e]; [|reflexivity].
  by destruct r as [[]|e].
Qed.

Lemma write_rows_stops good bad rest : ∀ idx seen,
  Forall writable good →
  record_title bad = None →
  write_rows idx seen (good ++ bad :: rest) =
    ((write_rows idx seen good).1,
     Raise (match bad with JObj _ => TypeError | _ => AttributeError end)).
Proof.
  induction good as [|item good IH]; intros idx seen Hw Hbad.
  - simpl. destruct bad as [| | | | |kvs]; try reflexivity.
    simpl in *.
    destruct (default (JStr "N/A") (dict_get kvs "Title")); try discriminate;
      reflexivity.
  - apply Forall_cons in Hw as [[t Ht] Hw].
    rewrite <- app_comm_cons.
    rewrite !(write_rows_unfold _ _ _ _ _ Ht).
    destruct (decide (t ∈ seen)); rewrite IH by done; reflexivity.
Qed.

(** Once the file is open, a record the writer cannot take, because it is
    not a dict or because its title cannot be hashed, makes [save_results]
    raise in the middle of the file: the file then exists with the header
    and the rows of the records before it, nothing is said about a saved
    file, and the records after it are never looked at. *)
Theorem save_results_partial_file SAVE_DIRECTORY good bad rest query w :
  can_save SAVE_DIRECTORY query w →
  Forall writable good →
  record_title bad = None →
  (save_results SAVE_DIRECTORY (good ++ bad :: rest) query w).1 =
    Raise (match bad with JObj _ => TypeError | _ => AttributeError end) ∧
  fs (save_results SAVE_DIRECTORY (good ++ bad :: rest) query w).2 =
    <[output_file SAVE_DIRECTORY query w :=
        header :: (write_rows 1 ∅ good).1]> (fs w) ∧
  stdout (save_results SAVE_DIRECTORY (good ++ bad :: rest) query w).2 = stdout w.
Proof.
  intros Hopen Hw Hbad.
  rewrite save_results_run by by destruct good.
  unfold can_save in Hopen. rewrite Hopen.
  by rewrite (write_rows_stops good bad rest 1 ∅ Hw Hbad).
Qed.

Lemma save_results_partial_file_witness :
  (save_results "/srv/research_results"
     ([paper "A" "N/A" "http://x"] ++ JStr "oops" :: [paper "B" "N/A" "http://z"])
     "a" offline).1 = Raise AttributeError ∧
  fs (save_results "/srv/research_results"
     ([paper "A" "N/A" "http://x"] ++ JStr "oops" :: [paper "B" "N/A" "http://z"])
     "a" offline).2 =
    <[output_file "/srv/research_results" "a" offline :=
        header :: (write_rows 1 ∅ [paper "A" "N/A" "http://x"]).1]> (fs offline) ∧
  stdout (save_results "/srv/research_results"
     ([paper "A" "N/A" "http://x"] ++ JStr "oops" :: [paper "B" "N/A" "http://z"])
     "a" offline).2 = stdout offline.
Proof.
  apply (save_results_partial_file "/srv/research_results"
           [paper "A" "N/A" "http://x"] (JStr "oops")
           [paper "B" "N/A" "http://z"] "a" offline).
  - reflexivity.
  - repeat constructor. by eexists.
  - reflexivity.
Defined.

(** [save_results] writes to one path only, the one built from the query
    and the time: every other file is as before, whether the call returns
    or raises. The file at that path is replaced, not extended: when
    [open] accepts the path, two saves for one query within the same
    second leave only the rows of the second. *)
Theorem save_results_one_file SAVE_DIRECTORY results query w :
  (∀ p, p ≠ output_file SAVE_DIRECTORY query w →
        fs (save_results SAVE_DIRECTORY results query w).2 !! p = fs w !! p) ∧
  (∀ results',
     results ≠ [] → results' ≠ [] →
     can_save SAVE_DIRECTORY query w →
     clock w (S (ticks w)) = clock w (ticks w) →
     fs (save_results SAVE_DIRECTORY results' query
           (save_results SAVE_DIRECTORY results query w).2).2 =
       <[output_file SAVE_DIRECTORY query w :=
           header :: (write_rows 1 ∅ results').1]> (fs w)).
Proof.
  split.
  - intros p Hp. destruct results as [|item rest]; [done|].
    rewrite save_results_run by done.
    destruct (os_open w _) as [[]|e]; [|done].
    destruct (write_rows 1 ∅ (item :: rest)).2; simpl;
      by rewrite lookup_insert_ne.
  - intros results' Hne Hne' Hopen Hclock. unfold can_save in Hopen.
    rewrite (save_results_run _ results), Hopen by done.
    assert (∀ v, os_open v = os_open w → clock v = clock w →
                 ticks v = S (ticks w) →
                 fs v = <[output_file SAVE_DIRECTORY query w :=
                            header :: (write_rows 1 ∅ results).1]> (fs w) →
                 fs (save_results SAVE_DIRECTORY results' query v).2 =
                   <[output_file SAVE_DIRECTORY query w :=
                       header :: (write_rows 1 ∅ results').1]> (fs w)) as Hsecond.
    { intros v Hos Hcl Hti Hfs. rewrite (save_results_run _ results') by done.
      assert (output_file SAVE_DIRECTORY query v = output_file SAVE_DIRECTORY query w)
        as Hpath.
      { unfold output_file. by rewrite Hcl, Hti, Hclock. }
      rewrite Hpath, Hos, Hopen.
      destruct (write_rows 1 ∅ results').2; simpl; rewrite Hfs;
        apply insert_insert_eq. }
    destruct (write_rows 1 ∅ results).2; by apply Hsecond.
Qed.

(** ** The formatter, continued *)

Lemma rmap_ok_inv {A B} (f : A → pyres B) (l : list A) out :
  rmap f l = Ok out → Forall2 (λ a b, f a = Ok b) l out.
Proof.
  revert out. induction l as [|a l IH]; intros out; simpl.
  - intros [= <-]. constructor.
  - destruct (f a) as [b|e] eqn:Hfa; [|discriminate]. simpl.
    destruct (rmap f l) as [bs|e]; [|discriminate]. simpl.
    intros [= <-]. constructor; [done|]. by apply IH.
Qed.

Lemma py_join_ok_inv sep names s :
  py_join sep names = Ok s → Forall (λ v, ∃ t, v = JStr t) names.
Proof.
  revert s. induction names as [|v names IH]; intros s; [constructor|].
  destruct v as [| | |t| |]; try discriminate.
  destruct names as [|v' names]; [repeat constructor; by eexists|].
  change (py_join sep (JStr t :: v' :: names))
    with (u ← py_join sep (v' :: names) ;;; Ok (t ++ sep ++ u)).
  destruct (py_join sep (v' :: names)) as [u|e] eqn:Hrest; [|discriminate].
  intros _. constructor; [by eexists|]. by apply (IH u).
Qed.

Lemma author_names_ok_inv (l : list json) names s :
  rmap (λ author, py_get author "name" (JStr "N/A")) l = Ok names →
  py_join ", " names = Ok s →
  forallb author_ok l = true.
Proof.
  intros Hnames Hjoin. apply rmap_ok_inv in Hnames.
  apply py_join_ok_inv in Hjoin.
  induction Hnames as [|a v l names Ha _ IH]; [done|].
  apply Forall_cons in Hjoin as [[t ->] Hjoin].
  simpl. rewrite IH by done. rewrite andb_true_r.
  destruct a as [| | | | |kvs]; try discriminate Ha.
  simpl in *. injection Ha as Ha.
  destruct (dict_get kvs "name") as [v|]; [|done].
  simpl in Ha. by subst v.
Qed.

Lemma chars_raise s :
  s ≠ "" →
  ∃ e, rmap (λ author, py_get author "name" (JStr "N/A")) (chars s) = Raise e.
Proof. destruct s; [done|]. intros _. by eexists. Qed.

Lemma format_result_typed raw rec :
  format_result raw = Ok rec → well_typed_raw raw = true.
Proof.
  destruct raw as [| | | | |kvs]; try discriminate.
  unfold format_result, well_typed_raw. cbn [py_get rbind].
  destruct (dict_get kvs "publication_info") as [[| | | | |pkvs]|];
    cbn [default from_option id py_get rbind]; try discriminate; [|done].
  destruct (dict_get pkvs "authors") as [authors|];
    cbn [default from_option id]; [|done].
  destruct authors as [|b|n|s|l|akvs]; cbn [truthy authors_ok].
  - done.
  - by destruct b.
  - by destruct (n =? 0)%Z.
  - destruct (bool_decide (s = "")) eqn:Hs; [done|].
    apply bool_decide_eq_false in Hs. cbn [negb py_iter rbind].
    destruct (chars_raise s Hs) as [e ->]. discriminate.
  - destruct l as [|a l]; [done|].
    rewrite bool_decide_eq_false_2 by done. cbn [negb py_iter rbind].
    destruct (rmap (λ author, py_get author "name" (JStr "N/A")) (a :: l))
      as [names|e] eqn:Hnames; [|discriminate].
    cbn [rbind].
    destruct (py_join ", " names) as [s|e] eqn:Hjoin; [|discriminate].
    intros _. by apply (author_names_ok_inv _ names s).
  - destruct akvs as [|[k v] akvs]; [done|]. discriminate.
Qed.

(** The typing of raw results is exactly what the formatter needs: it
    returns normally if and only if every raw result is well typed, and
    then there is one record for each raw result, in the same order;
    otherwise it raises and no record at all is produced. *)
Theorem format_returns_iff_typed raws :
  (Forall (λ raw, well_typed_raw raw = true) raws ↔
   ∃ recs, format_google_scholar_results raws = Ok recs) ∧
  (∀ recs, format_google_scholar_results raws = Ok recs →
           recs = map formatted raws ∧ length recs = length raws).
Proof.
  assert (∀ recs, format_google_scholar_results raws = Ok recs →
                  Forall (λ raw, well_typed_raw raw = true) raws) as Htyped.
  { intros recs Hrun. apply rmap_ok_inv in Hrun.
    induction Hrun as [|raw rec raws recs Hraw _ IH]; constructor; [|done].
    by apply (format_result_typed raw rec). }
  split.
  - split.
    + intros Hwt. exists (map formatted raws). by apply format_spec.
    + intros [recs Hrun]. by apply (Htyped recs).
  - intros recs Hrun. pose proof (Htyped recs Hrun) as Hwt.
    rewrite (format_spec raws Hwt) in Hrun. injection Hrun as <-.
    by rewrite length_map.
Qed.

(** An [authors] value that is present but empty in the sense of Python,
    the empty list or [null] for instance, gives the authors field
    ["N/A"], like a missing one. *)
Theorem format_authors_empty raws i raw authors :
  Forall (λ raw, well_typed_raw raw = true) raws →
  raws !! i = Some raw →
  authors_of raw = Some authors →
  truthy authors = false →
  ∃ recs rec,
    format_google_scholar_results raws = Ok recs ∧
    recs !! i = Some rec ∧
    field rec "Authors/Inventors" = Some (JStr "N/A").
Proof.
  intros Hwt Hi Hau Hfalsy.
  exists (map formatted raws), (formatted raw).
  split; [by apply format_spec|].
  split; [by rewrite list_lookup_fmap, Hi|].
  unfold formatted, authors_string. rewrite Hau.
  by destruct authors as [| | | |[|a l]|].
Qed.

Lemma format_authors_empty_witness :
  ∃ recs rec,
    format_google_scholar_results
      [JObj [("title", JStr "Paper C");
             ("publication_info", JObj [("authors", JArr [])])]] = Ok recs ∧
    recs !! 0 = Some rec ∧
    field rec "Authors/Inventors" = Some (JStr "N/A").
Proof.
  apply (format_authors_empty _ 0
           (JObj [("title", JStr "Paper C");
                  ("publication_info", JObj [("authors", JArr [])])])
           (JArr [])).
  - repeat constructor.
  - reflexivity.
  - reflexivity.
  - reflexivity.
Defined.

(** Title and link are passed through as they are: a field that is
    present keeps its value, [null] included, and only a missing field
    becomes ["N/A"]; the type is always ["Research Paper"]. *)
Theorem format_passes_title_and_link raws i raw :
  Forall (λ raw, well_typed_raw raw = true) raws →
  raws !! i = Some raw →
  ∃ recs rec,
    format_google_scholar_results raws = Ok recs ∧
    recs !! i = Some rec ∧
    field rec "Type" = Some (JStr "Research Paper") ∧
    (∀ v, field raw "title" = Some v → field rec "Title" = Some v) ∧
    (field raw "title" = None → field rec "Title" = Some (JStr "N/A")) ∧
    (∀ v, field raw "link" = Some v → field rec "Link/Patent Number" = Some v) ∧
    (field raw "link" = None → field rec "Link/Patent Number" = Some (JStr "N/A")).
Proof.
  intros Hwt Hi.
  exists (map formatted raws), (formatted raw).
  split; [by apply format_spec|].
  split; [by rewrite list_lookup_fmap, Hi|].
  unfold formatted. split; [done|].
  split; [intros v Hv; simpl; by rewrite Hv|].
  split; [intros Hv; simpl; by rewrite Hv|].
  split; [intros v Hv; simpl; by rewrite Hv|].
  intros Hv; simpl; by rewrite Hv.
Qed.

Lemma format_passes_title_and_link_witness :
  ∃ recs rec,
    format_google_scholar_results
      [JObj [("title", JNull); ("link", JStr "http://x")]] = Ok recs ∧
    recs !! 0 = Some rec ∧
    field rec "Type" = Some (JStr "Research Paper") ∧
    (∀ v, field (JObj [("title", JNull); ("link", JStr "http://x")]) "title"
            = Some v → field rec "Title" = Some v) ∧
    (field (JObj [("title", JNull); ("link", JStr "http://x")]) "title" = None →
     field rec "Title" = Some (JStr "N/A")) ∧
    (∀ v, field (JObj [("title", JNull); ("link", JStr "http://x")]) "link"
            = Some v → field rec "Link/Patent Number" = Some v) ∧
    (field (JObj [("title", JNull); ("link", JStr "http://x")]) "link" = None →
     field rec "Link/Patent Number" = Some (JStr "N/A")).
Proof.
  apply (format_passes_title_and_link _ 0
           (JObj [("title", JNull); ("link", JStr "http://x")])).
  - repeat constructor.
  - reflexivity.
Defined.

(** ** One query from the prompt to the file *)

(** A query that brings back well-typed results ends, after the report
    of their number and when [open] accepts the path, in exactly one new
    file, named after the query and the time of saving: it holds the header
    and one row for the first record of each title, numbered by position
    among all fetched records; then the loop is back at the prompt. *)
Theorem query_writes_one_file KEY SAVE_DIRECTORY query stdin' w results w1 :
  py_lower query ≠ "exit" →
  py_strip query ≠ "" →
  get_google_scholar_results KEY query 50
    (printed ["Fetching Google Scholar results..."] (printed [prompt] w))
    = (Ok results, w1) →
  results ≠ [] →
  Forall (λ raw, well_typed_raw raw = true ∧ title_ok raw = true) results →
  can_save SAVE_DIRECTORY query w1 →
  ∃ w2 kept,
    main KEY SAVE_DIRECTORY (query :: stdin') w = main KEY SAVE_DIRECTORY stdin' w2 ∧
    fs w2 =
      <[output_file SAVE_DIRECTORY query w1 :=
          header :: map (λ p, row_of (S p.1) p.2) kept]> (fs w) ∧
    length kept = size (distinct_titles (map formatted results)) ∧
    (∀ i item, (i, item) ∈ kept ↔
               first_occurrence ∅ (map formatted results) i item) ∧
    sent w2 = sent w1 ∧
    ticks w2 = S (ticks w).
Proof.
  intros Hexit Hblank Hget Hne Hty Hopen.
  assert (Forall (λ raw, well_typed_raw raw = true) results) as Hwt.
  { eapply Forall_impl; [exact Hty|]. by intros raw [? _]. }
  assert (Forall writable (map formatted results)) as Hw.
  { apply Forall_fmap. eapply Forall_impl; [exact Hty|].
    intros raw [_ ?]. by apply formatted_writable. }
  destruct (get_results_requests KEY query 50
              (printed ["Fetching Google Scholar results..."] (printed [prompt] w)))
    as (m & _ & _ & _ & Hfs1 & Hticks1).
  rewrite Hget in Hfs1, Hticks1. simpl in Hfs1, Hticks1.
  rewrite (main_query KEY SAVE_DIRECTORY query stdin' w results w1
             (map formatted results) Hexit Hblank Hget (format_spec results Hwt)).
  set (w1' := printed _ w1).
  destruct (save_results_spec SAVE_DIRECTORY (map formatted results) query w1' Hw
              (λ _, Hopen))
    as (kept & _ & Hok & Hfs & _ & Hmem & Hlen).
  assert (map formatted results ≠ []) as Hne' by by destruct results.
  assert (ticks (save_results SAVE_DIRECTORY (map formatted results) query w1').2
            = S (ticks w1') ∧
          sent (save_results SAVE_DIRECTORY (map formatted results) query w1').2
            = sent w1') as [Hticks2 Hsent2].
  { rewrite save_results_run by done.
    change (os_open w1' (output_file SAVE_DIRECTORY query w1'))
      with (os_open w1 (output_file SAVE_DIRECTORY query w1)).
    unfold can_save in Hopen. rewrite Hopen.
    by destruct (write_rows 1 ∅ (map formatted results)).2. }
  unfold bind.
  destruct (save_results SAVE_DIRECTORY (map formatted results) query w1')
    as [r w2] eqn:Hsave.
  simpl in Hok, Hfs, Hticks2, Hsent2. subst r.
  exists w2, kept. split; [done|].
  split; [|by rewrite Hticks2, Hticks1].
  rewrite Hfs, <- Hfs1. by destruct (map formatted results).
Qed.

Lemma query_writes_one_file_witness :
  ∃ w2 kept,
    main "k3y" "/srv/research_results" ["coq"; "exit"] flaky =
      main "k3y" "/srv/research_results" ["exit"] w2 ∧
    fs w2 =
      <[output_file "/srv/research_results" "coq"
          (get_google_scholar_results "k3y" "coq" 50
             (printed ["Fetching Google Scholar results..."]
                      (printed [prompt] flaky))).2 :=
          header :: map (λ p, row_of (S p.1) p.2) kept]> (fs flaky) ∧
    length kept = size (distinct_titles (map formatted (replicate 20 raw_bare))) ∧
    (∀ i item, (i, item) ∈ kept ↔
               first_occurrence ∅ (map formatted (replicate 20 raw_bare)) i item) ∧
    sent w2 =
      sent (get_google_scholar_results "k3y" "coq" 50
              (printed ["Fetching Google Scholar results..."]
                       (printed [prompt] flaky))).2 ∧
    ticks w2 = S (ticks flaky).
Proof.
  apply (query_writes_one_file "k3y" "/srv/research_results" "coq" ["exit"] flaky
           (replicate 20 raw_bare)).
  - discriminate.
  - discriminate.
  - reflexivity.
  - discriminate.
  - repeat constructor.
  - reflexivity.
Defined.

(** ** When the file cannot be opened *)

(** When [open] refuses the path, as it does for a query with a slash in
    it whose would-be directory is missing, [save_results] raises what
    [open] raised: the clock has been read, but no file is created, no row
    is written, nothing is printed, and the records are not even looked
    at; the interactive loop ends with that exception and reads no further
    line. *)
Theorem unopenable_file_aborts KEY SAVE_DIRECTORY query stdin' w results w1 recs e :
  py_lower query ≠ "exit" →
  py_strip query ≠ "" →
  get_google_scholar_results KEY query 50
    (printed ["Fetching Google Scholar results..."] (printed [prompt] w))
    = (Ok results, w1) →
  format_google_scholar_results results = Ok recs →
  recs ≠ [] →
  os_open w1 (output_file SAVE_DIRECTORY query w1) = Raise e →
  save_results SAVE_DIRECTORY recs query w1 = (Raise e, clock_read w1) ∧
  fs (clock_read w1) = fs w ∧
  stdout (clock_read w1) = stdout w1 ∧
  ∃ w2,
    main KEY SAVE_DIRECTORY (query :: stdin') w = (Raise e, w2) ∧
    fs w2 = fs w ∧
    sent w2 = sent w1.
Proof.
  intros Hexit Hblank Hget Hfmt Hne Hopen.
  destruct (get_results_requests KEY query 50
              (printed ["Fetching Google Scholar results..."] (printed [prompt] w)))
    as (m & _ & _ & _ & Hfs1 & _).
  rewrite Hget in Hfs1. simpl in Hfs1.
  split; [by rewrite save_results_run, Hopen|]. split; [done|]. split; [done|].
  rewrite (main_query KEY SAVE_DIRECTORY query stdin' w results w1 recs
             Hexit Hblank Hget Hfmt).
  unfold bind. rewrite save_results_run by done.
  change (os_open (printed _ w1) (output_file SAVE_DIRECTORY query (printed _ w1)))
    with (os_open w1 (output_file SAVE_DIRECTORY query w1)).
  rewrite Hopen. by eexists.
Qed.

Lemma unopenable_file_aborts_witness :
  save_results "/srv/research_results" (map formatted (replicate 20 raw_bare))
    "TCP/IP"
    (get_google_scholar_results "k3y" "TCP/IP" 50
       (printed ["Fetching Google Scholar results..."] (printed [prompt] flaky))).2
    = (Raise (Raised "FileNotFoundError"),
       clock_read
         (get_google_scholar_results "k3y" "TCP/IP" 50
            (printed ["Fetching Google Scholar results..."]
                     (printed [prompt] flaky))).2) ∧
  fs (clock_read
        (get_google_scholar_results "k3y" "TCP/IP" 50
           (printed ["Fetching Google Scholar results..."]
                    (printed [prompt] flaky))).2) = fs flaky ∧
  stdout (clock_read
            (get_google_scholar_results "k3y" "TCP/IP" 50
               (printed ["Fetching Google Scholar results..."]
                        (printed [prompt] flaky))).2)
    = stdout (get_google_scholar_results "k3y" "TCP/IP" 50
                (printed ["Fetching Google Scholar results..."]
                         (printed [prompt] flaky))).2 ∧
  ∃ w2,
    main "k3y" "/srv/research_results" ["TCP/IP"; "exit"] flaky
      = (Raise (Raised "FileNotFoundError"), w2) ∧
    fs w2 = fs flaky ∧
    sent w2 =
      sent (get_google_scholar_results "k3y" "TCP/IP" 50
              (printed ["Fetching Google Scholar results..."]
                       (printed [prompt] flaky))).2.
Proof.
  apply (unopenable_file_aborts "k3y" "/srv/research_results" "TCP/IP" ["exit"]
           flaky (replicate 20 raw_bare)).
  - discriminate.
  - discriminate.
  - reflexivity.
  - reflexivity.
  - discriminate.
  - reflexivity.
Defined.

Example slash_in_query :
  (main "k3y" "/srv/research_results" ["TCP/IP"; "exit"] flaky).1
    = Raise (Raised "FileNotFoundError") ∧
  fs (main "k3y" "/srv/research_results" ["TCP/IP"; "exit"] flaky).2 = ∅.
Proof. split; vm_compute; reflexivity. Qed.
